(** * examattendance: face check-in client and attendance REST server

    A shallow embedding of the decision logic of the two programs of the
    repository:

    - the Express/Mongoose server ([Server]): the student directory, the
      attendance ledger and the [register], [delete_student] and [checkin]
      handlers;
    - the browser client ([Client]): the descriptor averaging of the
      registration form and the nearest-neighbour matcher of the check-in page.

    Strings are Rocq byte strings, so the string methods below are the ASCII
    restriction of the JavaScript ones. *)

From Stdlib Require Import List String Ascii Bool Arith ZArith QArith Lia.
From Stdlib Require Import DecimalString Reals Qreals Lra.
From Stdlib Require Import Sorted Permutation.
Import ListNotations.

Set Warnings "-register-all".

Close Scope R_scope.
Close Scope Q_scope.
Local Open Scope string_scope.
Local Open Scope list_scope.

(* ================================================================= *)
(** ** JavaScript string methods *)

Module JsString.

Definition is_lower (c : ascii) : bool :=
  (97 <=? nat_of_ascii c)%nat && (nat_of_ascii c <=? 122)%nat.

Definition upper_char (c : ascii) : ascii :=
  if is_lower c then ascii_of_nat (nat_of_ascii c - 32) else c.

(** [String.prototype.toUpperCase] *)
Fixpoint toUpperCase (s : string) : string :=
  match s with
  | EmptyString => EmptyString
  | String c r => String (upper_char c) (toUpperCase r)
  end.

(** White space and line terminators: TAB, LF, VT, FF, CR, SP. *)
Definition is_space (c : ascii) : bool :=
  let n := nat_of_ascii c in
  ((9 <=? n)%nat && (n <=? 13)%nat) || (n =? 32)%nat.

Fixpoint trimStart (s : string) : string :=
  match s with
  | EmptyString => EmptyString
  | String c r => if is_space c then trimStart r else s
  end.

Fixpoint trimEnd (s : string) : string :=
  match s with
  | EmptyString => EmptyString
  | String c r =>
      match trimEnd r with
      | EmptyString => if is_space c then EmptyString else String c EmptyString
      | r' => String c r'
      end
  end.

(** [String.prototype.trim] *)
Definition trim (s : string) : string := trimEnd (trimStart s).

Definition is_empty (s : string) : bool :=
  match s with EmptyString => true | _ => false end.

End JsString.

(* ================================================================= *)
(** ** The server: [server.js] *)

Module Server.
Import JsString.

(** *** JSON values of a request body

    [JNum q] is a finite number with value [q]; a field that is absent
    from the body reads as [JUndefined]. *)
Inductive jsval : Type :=
| JUndefined
| JNull
| JBool (b : bool)
| JNum (q : Q)
| JStr (s : string)
| JArr (l : list jsval)
| JObj (fields : list (string * jsval)).

(** ToBoolean *)
Definition truthy (v : jsval) : bool :=
  match v with
  | JUndefined | JNull => false
  | JBool b => b
  | JNum q => negb (Qeq_bool q 0)
  | JStr s => negb (is_empty s)
  | JArr _ | JObj _ => true
  end.

(** [Array.isArray(v)] *)
Definition Array_isArray (v : jsval) : bool :=
  match v with JArr _ => true | _ => false end.

(** [v.length === n], read where [v] is known to be an array. *)
Definition length_is (v : jsval) (n : nat) : bool :=
  match v with
  | JArr l => (List.length l =? n)%nat
  | _ => false
  end.

(** *** Exceptions and the [try]/[catch] of a handler *)
Inductive exn : Type :=
| TypeError          (* call of a method the value does not have *)
| ValidationError    (* Mongoose validator or cast failure at save *)
| DuplicateKey.      (* E11000: a unique index rejects the insert *)

Inductive result (A : Type) : Type :=
| Ok (a : A)
| Throw (e : exn).
Arguments Ok {A} a.
Arguments Throw {A} e.

Definition bind {A B} (m : result A) (k : A -> result B) : result B :=
  match m with
  | Ok a => k a
  | Throw e => Throw e
  end.

Notation "'let*' x ':=' m 'in' k" := (bind m (fun x => k))
  (at level 10, x pattern, m at level 100, k at level 200).

(** [v.toUpperCase()] and [v.trim()]: only strings have the method. *)
Definition call_toUpperCase (v : jsval) : result string :=
  match v with JStr s => Ok (toUpperCase s) | _ => Throw TypeError end.

Definition call_trim (v : jsval) : result string :=
  match v with JStr s => Ok (trim s) | _ => Throw TypeError end.

(** *** Mongoose's cast to [Number]

    [null], [undefined] and the empty string cast to [null]; booleans to
    0 and 1; a string through [Number(s)].  [Number_of_string] reads the
    plain decimal literals ([-12], [87.5], [100.0]); every other string
    is a cast failure here. *)
Definition digit_of (c : ascii) : option Z :=
  let n := nat_of_ascii c in
  if ((48 <=? n)%nat && (n <=? 57)%nat)%bool
  then Some (Z.of_nat (n - 48)) else None.

(** Reads the longest run of digits: its value over [acc], how many
    digits were read, and the rest of the string. *)
Fixpoint read_digits (s : string) (acc : Z) (count : nat)
  : Z * nat * string :=
  match s with
  | EmptyString => (acc, count, EmptyString)
  | String c r =>
      match digit_of c with
      | Some d => read_digits r (10 * acc + d)%Z (S count)
      | None => (acc, count, s)
      end
  end.

Definition read_sign (s : string) : bool * string :=
  match s with
  | String "-"%char r => (true, r)
  | String "+"%char r => (false, r)
  | _ => (false, s)
  end.

Definition pow10 (n : nat) : positive := Pos.pow 10 (Pos.of_nat n).

Definition Number_of_string (s : string) : option Q :=
  match trim s with
  | EmptyString => Some 0%Q
  | t =>
      let '(neg, t1) := read_sign t in
      let '(ip, ni, t2) := read_digits t1 0%Z 0 in
      let '(fp, nf, t3) :=
        match t2 with
        | String "."%char r => read_digits r 0%Z 0
        | _ => (0%Z, 0%nat, t2)
        end in
      if (is_empty t3 && negb ((ni + nf =? 0)%nat))%bool then
        let m := match nf with
                 | O => Qmake ip 1
                 | S _ => Qmake (ip * Zpos (pow10 nf) + fp) (pow10 nf)
                 end in
        Some (if neg then Qopp m else m)
      else None
  end.

Definition castNumber (v : jsval) : result (option Q) :=
  match v with
  | JUndefined | JNull => Ok None
  | JNum q => Ok (Some q)
  | JBool b => Ok (Some (if b then 1%Q else 0%Q))
  | JStr EmptyString => Ok None
  | JStr s =>
      match Number_of_string s with
      | Some q => Ok (Some q)
      | None => Throw ValidationError
      end
  | JArr _ | JObj _ => Throw ValidationError
  end.

Fixpoint castNumberArray (l : list jsval) : result (list (option Q)) :=
  match l with
  | [] => Ok []
  | v :: r =>
      let* q := castNumber v in
      let* qs := castNumberArray r in
      Ok (q :: qs)
  end.

(** *** Schemas and collections

    The fields Mongoose adds on its own ([_id], [__v], [createdAt],
    [updatedAt]) play no part in the handlers' decisions and are left out. *)
Module Student.
Record doc : Type := {
  studentId : string;
  name : string;
  course : string;
  faceDescriptor : list (option Q);
  registeredAt : Z;
  isActive : bool
}.
End Student.

Module Attendance.
Record doc : Type := {
  studentId : string;
  name : string;
  course : string;
  checkInTime : Z;
  date : string;
  confidence : option Q
}.
End Attendance.

Record db : Type := {
  students : list Student.doc;
  attendance : list Attendance.doc
}.

(** An index declaration of a schema. *)
Record index_spec : Type := {
  keys : list string;
  unique : bool
}.

(** [studentId: { ..., unique: true, ... }] *)
Definition studentSchema_indexes : list index_spec :=
  [ {| keys := ["studentId"]; unique := true |} ].

(** [attendanceSchema.index({ studentId: 1, date: 1 })]: no options, so
    the index is an ordinary one. *)
Definition attendanceSchema_indexes : list index_spec :=
  [ {| keys := ["studentId"; "date"]; unique := false |} ].

Definition student_key (k : string) (s : Student.doc) : string :=
  if k =? "studentId" then Student.studentId s
  else if k =? "name" then Student.name s
  else if k =? "course" then Student.course s
  else EmptyString.

Definition attendance_key (k : string) (a : Attendance.doc) : string :=
  if k =? "studentId" then Attendance.studentId a
  else if k =? "name" then Attendance.name a
  else if k =? "course" then Attendance.course a
  else if k =? "date" then Attendance.date a
  else EmptyString.

Definition list_string_eqb (l1 l2 : list string) : bool :=
  if list_eq_dec string_dec l1 l2 then true else false.

(** Does inserting [d] break a unique index of [ixs] over [coll]? *)
Definition violates_unique {D} (field : string -> D -> string)
           (ixs : list index_spec) (coll : list D) (d : D) : bool :=
  existsb (fun ix =>
    unique ix &&
    existsb (fun e =>
      list_string_eqb (map (fun k => field k e) (keys ix))
                      (map (fun k => field k d) (keys ix))) coll) ixs.

(** The setters of [studentSchema.studentId] ([uppercase], [trim]).
    Mongoose runs them when a document is built and when the filter of a
    query on the path is cast. *)
Definition studentId_set (s : string) : string := trim (toUpperCase s).

(** [required: true] on a string path *)
Definition required_string (s : string) : bool := negb (is_empty s).

Definition Student_validate (s : Student.doc) : bool :=
  required_string (Student.studentId s) &&
  required_string (Student.name s) &&
  required_string (Student.course s).

(** [min: 0, max: 100]; validators skip [null]. *)
Definition confidence_in_range (c : option Q) : bool :=
  match c with
  | None => true
  | Some q => Qle_bool 0 q && Qle_bool q 100
  end.

Definition Attendance_validate (a : Attendance.doc) : bool :=
  required_string (Attendance.studentId a) &&
  required_string (Attendance.name a) &&
  required_string (Attendance.course a) &&
  required_string (Attendance.date a) &&
  confidence_in_range (Attendance.confidence a).

(** [doc.save()]: validation, then the insert, which the unique indexes
    of the collection may reject. *)
Definition Student_save (s : Student.doc) (coll : list Student.doc)
  : result (list Student.doc) :=
  if negb (Student_validate s) then Throw ValidationError
  else if violates_unique student_key studentSchema_indexes coll s
       then Throw DuplicateKey
  else Ok (coll ++ [s]).

Definition Attendance_save (a : Attendance.doc) (coll : list Attendance.doc)
  : result (list Attendance.doc) :=
  if negb (Attendance_validate a) then Throw ValidationError
  else if violates_unique attendance_key attendanceSchema_indexes coll a
       then Throw DuplicateKey
  else Ok (coll ++ [a]).

(** [Student.findOne({ studentId: k })] *)
Definition Student_findOne (k : string) (coll : list Student.doc)
  : option Student.doc :=
  find (fun s => Student.studentId s =? studentId_set k) coll.

(** [Attendance.findOne({ studentId: k, date: d })] *)
Definition Attendance_findOne (k d : string) (coll : list Attendance.doc)
  : option Attendance.doc :=
  find (fun a => (Attendance.studentId a =? k)
                 && (Attendance.date a =? d)) coll.

(** [Attendance.countDocuments({ studentId: k, date: d })] *)
Definition Attendance_count (k d : string) (coll : list Attendance.doc)
  : nat :=
  List.length (filter (fun a => (Attendance.studentId a =? k)
                                && (Attendance.date a =? d)) coll).

(** [Student.countDocuments()] *)
Definition Student_count (coll : list Student.doc) : nat :=
  List.length coll.

Definition deactivate (s : Student.doc) : Student.doc :=
  {| Student.studentId := Student.studentId s;
     Student.name := Student.name s;
     Student.course := Student.course s;
     Student.faceDescriptor := Student.faceDescriptor s;
     Student.registeredAt := Student.registeredAt s;
     Student.isActive := false |}.

(** [Student.findOneAndUpdate({ studentId: k }, { isActive: false },
    { new: true })]: the first match is updated in place. *)
Fixpoint Student_deactivateOne (k : string) (coll : list Student.doc)
  : option Student.doc * list Student.doc :=
  match coll with
  | [] => (None, [])
  | s :: r =>
      if Student.studentId s =? studentId_set k
      then (Some (deactivate s), deactivate s :: r)
      else let '(o, r') := Student_deactivateOne k r in (o, s :: r')
  end.

(** *** Requests and responses *)

(** [req.body], read through the fields the handlers destructure. *)
Record body : Type := {
  studentId : jsval;
  name : jsval;
  course : jsval;
  faceDescriptor : jsval;
  confidence : jsval
}.

Inductive payload : Type :=
| NoData
| StudentData (studentId name course : string) (registeredAt : Z)
| AttendanceData (a : Attendance.doc).

(** [res.status(status).json({ success, message, data, error })] *)
Record response : Type := {
  status : nat;
  success : bool;
  message : string;
  data : payload;
  error : option exn
}.

Definition respond (st : nat) (ok : bool) (msg : string) (p : payload)
  : response :=
  {| status := st; success := ok; message := msg; data := p; error := None |}.

Definition respond500 (msg : string) (e : exn) : response :=
  {| status := 500; success := false; message := msg; data := NoData;
     error := Some e |}.

(** *** POST /api/students/register *)

(** [new Student({ studentId, name, course, faceDescriptor })]: setters
    and casts of the schema, defaults for [registeredAt] and [isActive].
    A cast failure surfaces as the validation error of [save]. *)
Definition Student_new (now : Z) (sid nm crs : string) (fd : jsval)
  : result Student.doc :=
  let* q := match fd with
            | JArr l => castNumberArray l
            | _ => Throw ValidationError
            end in
  Ok {| Student.studentId := studentId_set sid;
        Student.name := trim nm;
        Student.course := trim crs;
        Student.faceDescriptor := q;
        Student.registeredAt := now;
        Student.isActive := true |}.

Definition register_try (now : Z) (b : body) (d : db)
  : result (response * db) :=
  if negb (truthy (studentId b)) || negb (truthy (name b))
     || negb (truthy (course b)) || negb (truthy (faceDescriptor b))
  then Ok (respond 400 false
             "All fields are required (studentId, name, course, faceDescriptor)"
             NoData, d)
  else if negb (Array_isArray (faceDescriptor b))
          || negb (length_is (faceDescriptor b) 128)
  then Ok (respond 400 false
             "Invalid face descriptor. Must be an array of 128 numbers"
             NoData, d)
  else
    let* key := call_toUpperCase (studentId b) in
    match Student_findOne key (students d) with
    | Some _ =>
        Ok (respond 409 false "Student ID already registered" NoData, d)
    | None =>
        let* sid := call_toUpperCase (studentId b) in
        let* nm := call_trim (name b) in
        let* crs := call_trim (course b) in
        let* student := Student_new now sid nm crs (faceDescriptor b) in
        let* coll := Student_save student (students d) in
        Ok (respond 201 true "Student registered successfully"
              (StudentData (Student.studentId student) (Student.name student)
                 (Student.course student) (Student.registeredAt student)),
            {| students := coll; attendance := attendance d |})
    end.

(** The handler with its [catch]: a throw answers 500 and writes nothing. *)
Definition register (now : Z) (b : body) (d : db) : response * db :=
  match register_try now b d with
  | Ok x => x
  | Throw e => (respond500 "Error registering student" e, d)
  end.

(** *** DELETE /api/students/:studentId (soft delete) *)
Definition delete_student (param : string) (d : db) : response * db :=
  match Student_deactivateOne (toUpperCase param) (students d) with
  | (None, _) => (respond 404 false "Student not found" NoData, d)
  | (Some _, coll) =>
      (respond 200 true "Student deleted successfully" NoData,
       {| students := coll; attendance := attendance d |})
  end.

(** *** POST /api/attendance/checkin

    The handler is an [async] function: it runs without interruption up to
    each [await] and other requests may run in between.  [checkin_pc] is
    the point a request has reached, [checkin_step] runs it to its next
    [await] (or to its response). *)
Inductive checkin_pc : Type :=
| Start (b : body)
| AwaitFindOne (b : body) (today key : string)
| AwaitSave (a : Attendance.doc)
| Done (r : response).

Definition catch (m : result checkin_pc) : checkin_pc :=
  match m with
  | Ok pc => pc
  | Throw e => Done (respond500 "Error marking attendance" e)
  end.

(** [new Attendance({ studentId, name, course, date, confidence })] *)
Definition Attendance_new (now : Z) (sid nm crs today : string) (conf : jsval)
  : result Attendance.doc :=
  let* c := castNumber conf in
  Ok {| Attendance.studentId := sid;
        Attendance.name := nm;
        Attendance.course := crs;
        Attendance.checkInTime := now;
        Attendance.date := today;
        Attendance.confidence := c |}.

(** [today] is [new Date().toLocaleDateString()] and [now] is [Date.now()]
    as read by the step. *)
Definition checkin_step (today : string) (now : Z) (pc : checkin_pc) (d : db)
  : checkin_pc * db :=
  match pc with
  | Start b =>
      if negb (truthy (studentId b)) || negb (truthy (name b))
         || negb (truthy (course b))
      then (Done (respond 400 false "Student information is required" NoData),
            d)
      else (catch (let* key := call_toUpperCase (studentId b) in
                   Ok (AwaitFindOne b today key)), d)
  | AwaitFindOne b today0 key =>
      match Attendance_findOne key today0 (attendance d) with
      | Some existing =>
          (Done (respond 409 false "Student already checked in today"
                   (AttendanceData existing)), d)
      | None =>
          (catch (let* sid := call_toUpperCase (studentId b) in
                  let* nm := call_trim (name b) in
                  let* crs := call_trim (course b) in
                  let* a := Attendance_new now sid nm crs today0
                              (if truthy (confidence b) then confidence b
                               else JNull) in
                  Ok (AwaitSave a)), d)
      end
  | AwaitSave a =>
      match Attendance_save a (attendance d) with
      | Ok coll =>
          (Done (respond 201 true "Attendance marked successfully"
                   (AttendanceData a)),
           {| students := students d; attendance := coll |})
      | Throw e => (Done (respond500 "Error marking attendance" e), d)
      end
  | Done r => (Done r, d)
  end.

Fixpoint checkin_run (fuel : nat) (today : string) (now : Z)
         (pc : checkin_pc) (d : db) : checkin_pc * db :=
  match fuel with
  | O => (pc, d)
  | S n => let '(pc', d') := checkin_step today now pc d in
           checkin_run n today now pc' d'
  end.

(** A request served alone, from its arrival to its response: the handler
    has two [await]s, so three steps. *)
Definition checkin (today : string) (now : Z) (b : body) (d : db)
  : checkin_pc * db :=
  checkin_run 3 today now (Start b) d.

(** Requests served one after the other on the same day. *)
Fixpoint checkin_all (today : string) (reqs : list (Z * body)) (d : db) : db :=
  match reqs with
  | [] => d
  | (now, b) :: r => checkin_all today r (snd (checkin today now b d))
  end.

(** Two requests in flight at once: [sched] names, step by step, which of
    the two runs next ([false] the first, [true] the second). *)
Fixpoint checkin_interleave (today : string) (now : Z) (sched : list bool)
         (pc1 pc2 : checkin_pc) (d : db) : checkin_pc * checkin_pc * db :=
  match sched with
  | [] => (pc1, pc2, d)
  | false :: r =>
      let '(pc1', d') := checkin_step today now pc1 d in
      checkin_interleave today now r pc1' pc2 d'
  | true :: r =>
      let '(pc2', d') := checkin_step today now pc2 d in
      checkin_interleave today now r pc1 pc2' d'
  end.

(** *** Vocabulary of the statements *)

(** What a check-in served alone can come to: a rejection that writes
    nothing, the conflict with the record found, or the admission that
    appends its record. *)
Inductive checkin_outcome (today : string) (now : Z) (b : body) (d : db)
  : checkin_pc * db -> Prop :=
| co_reject : forall r,
    status r = 400 \/ status r = 500 ->
    checkin_outcome today now b d (Done r, d)
| co_conflict : forall s e,
    studentId b = JStr s ->
    Attendance_findOne (toUpperCase s) today (attendance d) = Some e ->
    checkin_outcome today now b d
      (Done (respond 409 false "Student already checked in today"
               (AttendanceData e)), d)
| co_created : forall s a,
    studentId b = JStr s ->
    Attendance_findOne (toUpperCase s) today (attendance d) = None ->
    Attendance.studentId a = toUpperCase s ->
    Attendance.date a = today ->
    Attendance_validate a = true ->
    checkin_outcome today now b d
      (Done (respond 201 true "Attendance marked successfully"
               (AttendanceData a)),
       {| students := students d; attendance := attendance d ++ [a] |}).

(** At most one attendance record per (identity, date). *)
Definition at_most_one (coll : list Attendance.doc) : Prop :=
  forall k dt, Attendance_count k dt coll <= 1.

Definition is_number (v : jsval) : bool :=
  match v with JNum _ => true | _ => false end.

(** *** Sample requests *)

Definition ex_db0 : db := {| students := []; attendance := [] |}.

Definition ex_checkin (i n c : string) (conf : jsval) : body :=
  {| studentId := JStr i; name := JStr n; course := JStr c;
     faceDescriptor := JUndefined; confidence := conf |}.

Definition ex_record (now : Z) : Attendance.doc :=
  {| Attendance.studentId := "S100"; Attendance.name := "Ann";
     Attendance.course := "CS"; Attendance.checkInTime := now;
     Attendance.date := "3/14/2025";
     Attendance.confidence := Some (877 # 10)%Q |}.

Definition ex_register (i : string) (fd : jsval) : body :=
  {| studentId := JStr i; name := JStr "Ann"; course := JStr "CS";
     faceDescriptor := fd; confidence := JUndefined |}.

Definition ex_descriptor : jsval := JArr (repeat (JNum 0) 128).

End Server.

(* ================================================================= *)
(** ** The browser client: [app.js] *)

Module Client.
Import JsString.

(** *** JavaScript numbers

    The client computes on IEEE-754 doubles.  The code below is written
    against the operations it uses; the two zeros, which the program never
    tells apart, count as one value.  [lit q] is the double a literal (or
    an array length) of value [q] denotes, [Math_pow x n] is [Math.pow] at
    an integer literal exponent, [toFixed x f] is [x.toFixed(f)]. *)
Class JsNumber : Type := {
  num : Type;
  lit : Q -> num;
  NaN : num;
  add : num -> num -> num;
  sub : num -> num -> num;
  mul : num -> num -> num;
  div : num -> num -> num;
  Math_pow : num -> nat -> num;
  Math_sqrt : num -> num;
  lt : num -> num -> bool;
  isFinite : num -> bool;
  toFixed : num -> nat -> string
}.

(** The facts of double arithmetic the proofs rely on. *)
Class JsNumberLaws (N : JsNumber) : Prop := {
  lt_irreflexive : forall x, lt x x = false;
  lt_transitive : forall x y z, lt x y = true -> lt y z = true -> lt x z = true;
  lt_NaN_l : forall x, lt NaN x = false;
  lt_NaN_r : forall x, lt x NaN = false;
  lt_neither : forall x y,
      x <> NaN -> y <> NaN -> lt x y = false -> lt y x = false -> x = y;
  add_NaN_l : forall x, add NaN x = NaN;
  add_NaN_r : forall x, add x NaN = NaN;
  sub_NaN_r : forall x, sub x NaN = NaN;
  pow_NaN_2 : Math_pow NaN 2 = NaN;
  sqrt_NaN : Math_sqrt NaN = NaN;
  sqrt_not_negative : forall x, lt (Math_sqrt x) (lit 0) = false;
  sub_diag : forall x, isFinite x = true -> sub x x = lit 0;
  pow_lit_0 : Math_pow (lit 0) 2 = lit 0;
  add_lit_0 : add (lit 0) (lit 0) = lit 0;
  sqrt_lit_0 : Math_sqrt (lit 0) = lit 0;
  sub_lit_1_0 : sub (lit 1) (lit 0) = lit 1;
  mul_lit_1_100 : mul (lit 1) (lit 100) = lit 100;
  toFixed_lit_100 : toFixed (lit 100) 1 = "100.0";
  lt_0_threshold : lt (lit 0) (lit 0.6) = true
}.

Section WithNumber.
Context {N : JsNumber}.

(** ToNumber of an array read: an index past the end reads [undefined],
    which is [NaN] in arithmetic. *)
Definition ToNumber (o : option num) : num :=
  match o with
  | Some v => v
  | None => NaN
  end.

(** [l.reduce((acc, val, i) => f(acc, val, i), init)] *)
Fixpoint reduce_from {A B} (f : B -> A -> nat -> B) (i : nat) (l : list A)
         (acc : B) : B :=
  match l with
  | [] => acc
  | x :: r => reduce_from f (S i) r (f acc x i)
  end.

Definition reduce {A B} (f : B -> A -> nat -> B) (l : list A) (init : B) : B :=
  reduce_from f 0 l init.

(** [l.map((x, i) => f(x, i))] *)
Fixpoint map_from {A B} (f : A -> nat -> B) (i : nat) (l : list A) : list B :=
  match l with
  | [] => []
  | x :: r => f x i :: map_from f (S i) r
  end.

Definition Array_map {A B} (f : A -> nat -> B) (l : list A) : list B :=
  map_from f 0 l.

(** *** Registration: averaging the captured samples *)

(** The [avgDescriptor] of the register handler; it is evaluated only
    behind the guard [capturedSamples.length < 3], so index 0 exists. *)
Definition avgDescriptor (capturedSamples : list (list num)) : list num :=
  Array_map (fun _ i =>
    let sum := fold_left (fun acc sample =>
                            add acc (ToNumber (nth_error sample i)))
                         capturedSamples (lit 0) in
    div sum (lit (inject_Z (Z.of_nat (List.length capturedSamples)))))
  (nth 0 capturedSamples []).

Inductive register_result : Type :=
| MissingFields           (* modal "Missing Fields", nothing sent *)
| MissingFaceSamples      (* modal "Missing Face Samples", nothing sent *)
| PostRegister (studentId name course : string) (faceDescriptor : list num).
                          (* POST /students/register with this body *)

(** The click handler of [registerStudent], up to its request. *)
Definition registerStudent_click (reg_id reg_name reg_course : string)
           (capturedSamples : list (list num)) : register_result :=
  let id := toUpperCase (trim reg_id) in
  let name := trim reg_name in
  let course := trim reg_course in
  if is_empty id || is_empty name || is_empty course then MissingFields
  else if (List.length capturedSamples <? 3)%nat then MissingFaceSamples
  else PostRegister id name course (avgDescriptor capturedSamples).

(** *** Check-in: nearest enrolled descriptor under the threshold *)

Definition euclideanDistance (a b : list num) : num :=
  Math_sqrt (reduce (fun sum val i =>
                       add sum (Math_pow (sub val (ToNumber (nth_error b i))) 2))
                    a (lit 0)).

(** An entry of [studentDescriptors], as GET /students/descriptors lists it. *)
Record student : Type := {
  id : string;
  name : string;
  course : string;
  faceData : list num
}.

(** One turn of the [forEach] over [studentDescriptors], on the pair
    ([bestMatch], [bestDistance]). *)
Definition best_step (faceDescriptor : list num)
           (best : option student * num) (s : student)
  : option student * num :=
  let distance := euclideanDistance faceDescriptor (faceData s) in
  if lt distance (snd best) then (Some s, distance) else best.

Definition find_best (faceDescriptor : list num)
           (studentDescriptors : list student) : option student * num :=
  fold_left (best_step faceDescriptor) studentDescriptors (None, lit 0.6).

Inductive verify_result : Type :=
| NoFaceDetected          (* modal "No Face Detected" *)
| NoStudents              (* modal "No Students" *)
| NotRecognized           (* modal "Not Recognized" *)
| PostCheckin (studentId name course confidence : string).
                          (* POST /attendance/checkin with this body *)

(** The click handler of [startVerify], up to its request. *)
Definition startVerify_click (checkInDetections : list (list num))
           (studentDescriptors : list student) : verify_result :=
  match checkInDetections with
  | [] => NoFaceDetected
  | faceDescriptor :: _ =>
      if (List.length studentDescriptors =? 0)%nat then NoStudents
      else
        match find_best faceDescriptor studentDescriptors with
        | (None, _) => NotRecognized
        | (Some bestMatch, bestDistance) =>
            PostCheckin (id bestMatch) (name bestMatch) (course bestMatch)
              (toFixed (mul (sub (lit 1) bestDistance) (lit 100)) 1)
        end
  end.

(** *** Vocabulary of the statements *)

(** The callback of the [reduce] in [euclideanDistance]. *)
Definition square_term (b : list num) (sum val : num) (i : nat) : num :=
  add sum (Math_pow (sub val (ToNumber (nth_error b i))) 2).

(** The sum of the squared differences of two vectors, component by
    component from the left, on top of [acc]. *)
Fixpoint sum_squares (acc : num) (a b : list num) : num :=
  match a, b with
  | x :: a', y :: b' => sum_squares (add acc (Math_pow (sub x y) 2)) a' b'
  | _, _ => acc
  end.

(** The arithmetic mean: the sum from the left, over the count. *)
Definition mean (xs : list num) : num :=
  div (fold_left add xs (lit 0)) (lit (inject_Z (Z.of_nat (List.length xs)))).

(** The distance of the probe to an enrolled student. *)
Definition dist (faceDescriptor : list num) (s : student) : num :=
  euclideanDistance faceDescriptor (faceData s).

(** NoMatch: one of the two modals that report no match. *)
Definition no_match (r : verify_result) : Prop :=
  r = NoStudents \/ r = NotRecognized.

End WithNumber.

End Client.

(* ================================================================= *)
(** ** A model of the numbers: exact real arithmetic

    Doubles read as the real numbers they denote, every operation exact,
    [NaN] apart.  Overflow to an infinity does not occur in this model; a
    division by zero, which the client never performs, is [RNaN]. *)

Module RealModel.
Import Client.

Inductive rnum : Type :=
| Real (r : R)
| RNaN.

Definition radd (a b : rnum) : rnum :=
  match a, b with
  | Real x, Real y => Real (x + y)
  | _, _ => RNaN
  end.

Definition rsub (a b : rnum) : rnum :=
  match a, b with
  | Real x, Real y => Real (x - y)
  | _, _ => RNaN
  end.

Definition rmul (a b : rnum) : rnum :=
  match a, b with
  | Real x, Real y => Real (x * y)
  | _, _ => RNaN
  end.

Definition rdiv (a b : rnum) : rnum :=
  match a, b with
  | Real x, Real y => if Req_dec_T y 0 then RNaN else Real (x / y)
  | _, _ => RNaN
  end.

(** [Math.pow(NaN, 0)] is 1. *)
Definition rpow (a : rnum) (n : nat) : rnum :=
  match a with
  | Real x => Real (x ^ n)
  | RNaN => match n with O => Real 1 | S _ => RNaN end
  end.

Definition rsqrt (a : rnum) : rnum :=
  match a with
  | Real x => if Rlt_dec x 0 then RNaN else Real (sqrt x)
  | RNaN => RNaN
  end.

Definition rlt (a b : rnum) : bool :=
  match a, b with
  | Real x, Real y => if Rlt_dec x y then true else false
  | _, _ => false
  end.

Definition rfinite (a : rnum) : bool :=
  match a with
  | Real _ => true
  | RNaN => false
  end.

Definition decimal (z : Z) : string :=
  NilZero.string_of_uint (N.to_uint (Z.to_N z)).

Fixpoint zeros (n : nat) : string :=
  match n with
  | O => EmptyString
  | S m => String "0" (zeros m)
  end.

Definition pad_left (f : nat) (s : string) : string :=
  (zeros (f - String.length s) ++ s)%string.

(** [x.toFixed(f)] for |x| below 1e21: the sign, then the digits of the
    integer [n] nearest to |x| * 10^f (the larger one on a tie), with the
    point before the last [f] digits. *)
Definition rtoFixed (a : rnum) (f : nat) : string :=
  match a with
  | RNaN => "NaN"
  | Real x =>
      let neg := if Rlt_dec x 0 then true else false in
      let ax := if neg then (- x)%R else x in
      let k := (10 ^ Z.of_nat f)%Z in
      let n := Int_part (ax * IZR k + / 2) in
      let digits :=
        (decimal (n / k) ++
         match f with
         | O => EmptyString
         | S _ => "." ++ pad_left f (decimal (n mod k))
         end)%string in
      if neg then ("-" ++ digits)%string else digits
  end.

#[export] Instance RealNumber : JsNumber := {|
  num := rnum;
  lit := fun q => Real (Q2R q);
  NaN := RNaN;
  add := radd;
  sub := rsub;
  mul := rmul;
  div := rdiv;
  Math_pow := rpow;
  Math_sqrt := rsqrt;
  lt := rlt;
  isFinite := rfinite;
  toFixed := rtoFixed
|}.

(** *** Vocabulary of the statements and sample vectors *)

(** The sum of (a_i - b_i)^2 and the sum of a list, over the reals. *)
Fixpoint sum_sq (a b : list R) : R :=
  match a, b with
  | x :: a', y :: b' => (x - y) ^ 2 + sum_sq a' b'
  | _, _ => 0
  end.

Definition sum (rs : list R) : R := fold_right Rplus 0%R rs.

Definition ex_student (fd : list rnum) : student :=
  {| id := "S100"; name := "Ann"; course := "CS"; faceData := fd |}.

Definition ex_student2 (fd : list rnum) : student :=
  {| id := "S200"; name := "Bob"; course := "CS"; faceData := fd |}.

Definition ex_samples_mismatched : list (list rnum) :=
  [repeat (Real 0) 128; repeat (Real 0) 128; repeat (Real 0) 127].

End RealModel.

(* ================================================================= *)
(** ** The registration form of the client *)

Module ClientForm.
Import JsString Client.

(** One more fact of double arithmetic: a difference and its opposite
    have the same square. *)
Class JsNumberSquareLaw (N : JsNumber) : Prop := {
  pow_sub_swap : forall x y, Math_pow (sub x y) 2 = Math_pow (sub y x) 2
}.

Section WithNumber.
Context {N : JsNumber}.

(** The state the handlers of the register page share: the samples
    captured so far and the [disabled] class of the two buttons. *)
Record register_form : Type := {
  capturedSamples : list (list num);
  captureDisabled : bool;
  registerDisabled : bool
}.

(** The click handler of [captureFace]; [registerDetections] holds the
    descriptors of the faces of the last detection. *)
Definition captureFace_click (registerDetections : list (list num))
           (f : register_form) : register_form :=
  match registerDetections with
  | [] => f
  | descriptor :: _ =>
      let samples := capturedSamples f ++ [descriptor] in
      if (3 <=? List.length samples)%nat
      then {| capturedSamples := samples;
              captureDisabled := true;
              registerDisabled := false |}
      else {| capturedSamples := samples;
              captureDisabled := captureDisabled f;
              registerDisabled := registerDisabled f |}
  end.

(** The detection callback of [initRegisterCamera]. *)
Definition register_detection (detections : list (list num))
           (f : register_form) : register_form :=
  {| capturedSamples := capturedSamples f;
     captureDisabled := (List.length detections =? 0)%nat;
     registerDisabled := registerDisabled f |}.

(** The register handler once the server has answered: [success] is
    [data.success]. *)
Definition registerStudent_done (success : bool) (f : register_form)
  : register_form :=
  if success
  then {| capturedSamples := [];
          captureDisabled := false;
          registerDisabled := true |}
  else f.

(** What happens on the register page. *)
Inductive form_event : Type :=
| CaptureClick (registerDetections : list (list num))
| Detection (detections : list (list num))
| RegisterDone (success : bool).

Definition form_step (f : register_form) (e : form_event) : register_form :=
  match e with
  | CaptureClick ds => captureFace_click ds f
  | Detection ds => register_detection ds f
  | RegisterDone ok => registerStudent_done ok f
  end.

(** The descriptors a run of events adds to the samples since the last
    successful registration. *)
Fixpoint captured (acc : list (list num)) (es : list form_event)
  : list (list num) :=
  match es with
  | [] => acc
  | CaptureClick (descriptor :: _) :: r => captured (acc ++ [descriptor]) r
  | RegisterDone true :: r => captured [] r
  | _ :: r => captured acc r
  end.

(** With the register button enabled there are three samples or more. *)
Definition form_ok (f : register_form) : Prop :=
  registerDisabled f = false -> 3 <= List.length (capturedSamples f).

End WithNumber.



End ClientForm.

(* ================================================================= *)
(** ** The server's other routes *)

Module ServerRoutes.
Import JsString Server.

(** *** Sorting a query result

    [.sort({ key: 1 })]: MongoDB leaves the order of documents with equal
    keys open; here they keep the order of the collection. *)
Fixpoint insert_by {A} (leb : A -> A -> bool) (x : A) (l : list A) : list A :=
  match l with
  | [] => [x]
  | y :: r => if leb x y then x :: l else y :: insert_by leb x r
  end.

Definition sort_by {A} (leb : A -> A -> bool) (l : list A) : list A :=
  fold_right (insert_by leb) [] l.

(** [sort({ name: 1 })]: strings compare by their code units. *)
Definition by_name (a b : Student.doc) : bool :=
  String.leb (Student.name a) (Student.name b).

(** [sort({ checkInTime: -1 })] *)
Definition by_time_desc (a b : Attendance.doc) : bool :=
  (Attendance.checkInTime b <=? Attendance.checkInTime a)%Z.

(** *** Answers *)

(** A student as [.select('-faceDescriptor -__v')] returns it. *)
Record student_view : Type := {
  v_studentId : string;
  v_name : string;
  v_course : string;
  v_registeredAt : Z;
  v_isActive : bool
}.

Definition view (s : Student.doc) : student_view :=
  {| v_studentId := Student.studentId s;
     v_name := Student.name s;
     v_course := Student.course s;
     v_registeredAt := Student.registeredAt s;
     v_isActive := Student.isActive s |}.

(** An entry of GET /api/students/descriptors:
    [{ id, name, course, faceData }]. *)
Record descriptor_view : Type := {
  d_id : string;
  d_name : string;
  d_course : string;
  d_faceData : list (option Q)
}.

Definition descriptor_of (s : Student.doc) : descriptor_view :=
  {| d_id := Student.studentId s;
     d_name := Student.name s;
     d_course := Student.course s;
     d_faceData := Student.faceDescriptor s |}.

(** The integer fields of GET /api/attendance/stats. *)
Record stats : Type := {
  totalStudents : nat;
  presentToday : nat;
  absentToday : Z;
  totalAttendanceRecords : nat;
  stats_date : string
}.

Inductive answer : Type :=
| StudentList (count : nat) (data : list student_view)
| DescriptorList (count : nat) (data : list descriptor_view)
| StudentFound (data : student_view)
| StudentUpdated (data : student_view)
| AttendanceList (date : string) (count : nat) (data : list Attendance.doc)
| StudentAttendance (studentId : string) (count : nat)
                    (data : list Attendance.doc)
| StatsData (data : stats)
| Cleared
| Failure (status : nat) (message : string) (error : option exn).

Definition answer_status (a : answer) : nat :=
  match a with
  | Failure st _ _ => st
  | _ => 200
  end.

(** *** GET /api/students and GET /api/students/descriptors *)

Definition active_students (d : db) : list Student.doc :=
  sort_by by_name (filter Student.isActive (students d)).

Definition get_students (d : db) : answer :=
  let found := active_students d in
  StudentList (List.length found) (map view found).

Definition get_descriptors (d : db) : answer :=
  let found := active_students d in
  DescriptorList (List.length found) (map descriptor_of found).

(** *** GET /api/students/:studentId *)
Definition get_student (param : string) (d : db) : answer :=
  match Student_findOne (toUpperCase param) (students d) with
  | None => Failure 404 "Student not found" None
  | Some s => StudentFound (view s)
  end.

(** *** PUT /api/students/:studentId *)

(** [updateData], once cast by the schema: the paths to set. *)
Record update_data : Type := {
  u_name : option string;
  u_course : option string;
  u_faceDescriptor : option (list (option Q))
}.

Definition apply_update (u : update_data) (s : Student.doc) : Student.doc :=
  {| Student.studentId := Student.studentId s;
     Student.name := match u_name u with
                     | Some n => n
                     | None => Student.name s
                     end;
     Student.course := match u_course u with
                       | Some c => c
                       | None => Student.course s
                       end;
     Student.faceDescriptor := match u_faceDescriptor u with
                               | Some q => q
                               | None => Student.faceDescriptor s
                               end;
     Student.registeredAt := Student.registeredAt s;
     Student.isActive := Student.isActive s |}.

(** [Student.findOneAndUpdate({ studentId: k }, updateData, { new: true })]:
    the first match is updated in place; update validators are off. *)
Fixpoint Student_updateOne (k : string) (u : update_data)
         (coll : list Student.doc) : option Student.doc * list Student.doc :=
  match coll with
  | [] => (None, [])
  | s :: r =>
      if Student.studentId s =? studentId_set k
      then (Some (apply_update u s), apply_update u s :: r)
      else let '(o, r') := Student_updateOne k u r in (o, s :: r')
  end.

(** [if (v) updateData.path = v.trim()], then the [trim] setter of the
    path when the update is cast. *)
Definition update_string (v : jsval) : result (option string) :=
  if truthy v
  then let* t := call_trim v in Ok (Some (trim t))
  else Ok None.

Definition update_student_try (param : string) (b : body) (d : db)
  : result (answer * db) :=
  let* nm := update_string (name b) in
  let* crs := update_string (course b) in
  if truthy (faceDescriptor b)
     && (negb (Array_isArray (faceDescriptor b))
         || negb (length_is (faceDescriptor b) 128))
  then Ok (Failure 400 "Invalid face descriptor" None, d)
  else
    let* fd := if truthy (faceDescriptor b)
               then match faceDescriptor b with
                    | JArr l => let* q := castNumberArray l in Ok (Some q)
                    | _ => Throw ValidationError
                    end
               else Ok None in
    let u := {| u_name := nm; u_course := crs; u_faceDescriptor := fd |} in
    match Student_updateOne (toUpperCase param) u (students d) with
    | (None, _) => Ok (Failure 404 "Student not found" None, d)
    | (Some s, coll) =>
        Ok (StudentUpdated (view s),
            {| students := coll; attendance := attendance d |})
    end.

Definition update_student (param : string) (b : body) (d : db)
  : answer * db :=
  match update_student_try param b d with
  | Ok x => x
  | Throw e => (Failure 500 "Error updating student" (Some e), d)
  end.

(** *** GET /api/attendance/today, /date/:date, /student/:studentId *)

Definition attendance_on (date : string) (d : db) : list Attendance.doc :=
  sort_by by_time_desc
    (filter (fun a => Attendance.date a =? date) (attendance d)).

(** [today] is [new Date().toLocaleDateString()]. *)
Definition get_attendance_today (today : string) (d : db) : answer :=
  let found := attendance_on today d in
  AttendanceList today (List.length found) found.

Definition get_attendance_date (param : string) (d : db) : answer :=
  let found := attendance_on param d in
  AttendanceList param (List.length found) found.

Definition get_attendance_student (param : string) (d : db) : answer :=
  let found :=
    sort_by by_time_desc
      (filter (fun a => Attendance.studentId a =? toUpperCase param)
              (attendance d)) in
  StudentAttendance (toUpperCase param) (List.length found) found.

(** *** GET /api/attendance/stats

    [attendanceRate], a [toFixed(2)] of a quotient of doubles, is left
    out of the answer here. *)
Definition get_attendance_stats (today : string) (d : db) : answer :=
  let total := List.length (filter Student.isActive (students d)) in
  let present :=
    List.length (filter (fun a => Attendance.date a =? today)
                        (attendance d)) in
  StatsData {| totalStudents := total;
               presentToday := present;
               absentToday := (Z.of_nat total - Z.of_nat present)%Z;
               totalAttendanceRecords := List.length (attendance d);
               stats_date := today |}.

(** *** DELETE /api/admin/clear-all *)
Definition clear_all (d : db) : answer * db :=
  (Cleared, {| students := []; attendance := [] |}).

(** *** Requests that write, served one after the other *)
Inductive request : Type :=
| Register (now : Z) (b : body)
| Update (param : string) (b : body)
| Delete (param : string)
| Checkin (today : string) (now : Z) (b : body)
| ClearAll.

Definition serve (d : db) (r : request) : db :=
  match r with
  | Register now b => snd (register now b d)
  | Update param b => snd (update_student param b d)
  | Delete param => snd (delete_student param d)
  | Checkin today now b => snd (checkin today now b d)
  | ClearAll => snd (clear_all d)
  end.

Definition serve_all (reqs : list request) (d : db) : db :=
  fold_left serve reqs d.

Definition is_clear (r : request) : bool :=
  match r with ClearAll => true | _ => false end.

(** *** Vocabulary of the statements *)

(** What the handlers keep true of the student collection: keys pairwise
    distinct, each one non-empty and left alone by the schema's setters,
    and descriptors of 128 components. *)
Record students_ok (coll : list Student.doc) : Prop := {
  ok_distinct : NoDup (map Student.studentId coll);
  ok_keys : forall s, In s coll ->
      Student.studentId s <> EmptyString /\
      studentId_set (Student.studentId s) = Student.studentId s;
  ok_descriptors : forall s, In s coll ->
      List.length (Student.faceDescriptor s) = 128
}.

(** What an update answers and writes. *)
Inductive update_outcome (param : string) (b : body) (d : db)
  : answer * db -> Prop :=
| uo_reject : forall st msg e,
    st = 400 \/ st = 404 \/ st = 500 ->
    update_outcome param b d (Failure st msg e, d)
| uo_updated : forall u s coll,
    update_string (name b) = Ok (u_name u) ->
    update_string (course b) = Ok (u_course u) ->
    (forall q, u_faceDescriptor u = Some q -> List.length q = 128) ->
    Student_updateOne (toUpperCase param) u (students d) = (Some s, coll) ->
    update_outcome param b d
      (StudentUpdated (view s),
       {| students := coll; attendance := attendance d |}).

(** What an update leaves alone in every document. *)
Definition fixed_part (s : Student.doc) : string * Z * bool :=
  (Student.studentId s, Student.registeredAt s, Student.isActive s).

(** The figures of GET /api/attendance/stats. *)
Definition stats_of (today : string) (d : db) : stats :=
  match get_attendance_stats today d with
  | StatsData st => st
  | _ => {| totalStudents := 0; presentToday := 0; absentToday := 0;
            totalAttendanceRecords := 0; stats_date := today |}
  end.

Definition ex_update (n : jsval) : body :=
  {| studentId := JUndefined; name := n; course := JUndefined;
     faceDescriptor := JUndefined; confidence := JUndefined |}.

(** The document a registration stores. *)
Definition registered (now : Z) (s n c : string) (q : list (option Q))
  : Student.doc :=
  {| Student.studentId := studentId_set s;
     Student.name := trim n;
     Student.course := trim c;
     Student.faceDescriptor := q;
     Student.registeredAt := now;
     Student.isActive := true |}.

(** A string that does not start with a blank. *)
Definition starts_clean (s : string) : Prop :=
  match s with
  | EmptyString => True
  | String c _ => is_space c = false
  end.

(** [l1] is an initial segment of [l2]. *)
Definition prefix {A} (l1 l2 : list A) : Prop := exists r, l2 = l1 ++ r.

End ServerRoutes.

(* ================================================================= *)
(** * Properties of the server *)

Module ServerSpec.
Import JsString Server.

(** *** The check-in handler, case by case *)

Lemma toUpperCase_is_empty : forall s, is_empty (toUpperCase s) = is_empty s.
Proof. destruct s; reflexivity. Qed.

Lemma Attendance_save_inserts : forall a coll,
  Attendance_validate a = true -> Attendance_save a coll = Ok (coll ++ [a]).
Proof.
  intros a coll Hv. unfold Attendance_save. rewrite Hv. reflexivity.
Qed.

Lemma Attendance_save_Ok : forall a coll coll',
  Attendance_save a coll = Ok coll' ->
  Attendance_validate a = true /\ coll' = coll ++ [a].
Proof.
  intros a coll coll'. unfold Attendance_save.
  destruct (Attendance_validate a); simpl; [|discriminate].
  intros H; inversion H; auto.
Qed.

Lemma checkin_spec : forall today now b d,
  checkin_outcome today now b d (checkin today now b d).
Proof.
  intros today now b d. unfold checkin, checkin_run, checkin_step.
  destruct (negb (truthy (studentId b)) || negb (truthy (name b))
            || negb (truthy (course b))) eqn:Hmiss.
  { apply co_reject. left; reflexivity. }
  destruct (studentId b) as [| |?|?|s|?|?] eqn:Hs; simpl;
    try (apply co_reject; right; reflexivity).
  destruct (Attendance_findOne (toUpperCase s) today (attendance d)) as [e|] eqn:Hf.
  { eapply co_conflict; eauto. }
  rewrite Hs. simpl.
  destruct (name b) as [| |?|?|n|?|?]; simpl;
    try (apply co_reject; right; reflexivity).
  destruct (course b) as [| |?|?|c|?|?]; simpl;
    try (apply co_reject; right; reflexivity).
  unfold Attendance_new.
  destruct (castNumber _) as [q|e]; simpl;
    try (apply co_reject; right; reflexivity).
  destruct (Attendance_save _ _) as [coll|e] eqn:Hsave;
    try (apply co_reject; right; reflexivity).
  apply Attendance_save_Ok in Hsave. destruct Hsave as [Hv ->].
  eapply co_created; eauto.
Qed.

(** Counting and finding in a ledger that grows at its end. *)
Lemma Attendance_count_app : forall k dt l1 l2,
  Attendance_count k dt (l1 ++ l2)
  = Attendance_count k dt l1 + Attendance_count k dt l2.
Proof.
  intros. unfold Attendance_count. rewrite filter_app, length_app. reflexivity.
Qed.

Lemma Attendance_findOne_None_count : forall k dt l,
  Attendance_findOne k dt l = None <-> Attendance_count k dt l = 0.
Proof.
  intros k dt l. unfold Attendance_findOne, Attendance_count.
  induction l as [|a l IH]; simpl; [tauto|].
  destruct ((Attendance.studentId a =? k) && (Attendance.date a =? dt));
    simpl; [split; discriminate | exact IH].
Qed.

Lemma Attendance_findOne_app : forall k dt l1 l2,
  Attendance_findOne k dt (l1 ++ l2)
  = match Attendance_findOne k dt l1 with
    | Some a => Some a
    | None => Attendance_findOne k dt l2
    end.
Proof.
  intros k dt l1 l2. unfold Attendance_findOne.
  induction l1 as [|a l IH]; simpl; [reflexivity|].
  destruct ((Attendance.studentId a =? k) && (Attendance.date a =? dt));
    [reflexivity | exact IH].
Qed.

Lemma Attendance_count_single : forall k dt a,
  Attendance_count k dt [a]
  = if (Attendance.studentId a =? k) && (Attendance.date a =? dt)
    then 1 else 0.
Proof.
  intros. unfold Attendance_count. simpl.
  destruct ((Attendance.studentId a =? k) && (Attendance.date a =? dt));
    reflexivity.
Qed.

Lemma Attendance_findOne_single : forall k dt a,
  Attendance_findOne k dt [a]
  = if (Attendance.studentId a =? k) && (Attendance.date a =? dt)
    then Some a else None.
Proof. reflexivity. Qed.

(** A check-in served alone leaves the count of a pair alone, unless it is
    the admission of that very pair, which takes it from 0 to 1. *)
Lemma checkin_count : forall today now b d k dt,
  let d' := snd (checkin today now b d) in
  Attendance_count k dt (attendance d') = Attendance_count k dt (attendance d)
  \/ (Attendance_count k dt (attendance d) = 0 /\
      Attendance_count k dt (attendance d') = 1).
Proof.
  intros today now b d k dt.
  destruct (checkin_spec today now b d) as [r Hr | s e Hs Hf | s a Hs Hf Hk Hd Hv];
    simpl; auto.
  rewrite Attendance_count_app, Attendance_count_single.
  destruct (Attendance.studentId a =? k) eqn:Ek; simpl; [|left; lia].
  destruct (Attendance.date a =? dt) eqn:Ed; simpl; [|left; lia].
  apply String.eqb_eq in Ek, Ed. subst k dt. right.
  rewrite Hk, Hd.
  apply Attendance_findOne_None_count in Hf. rewrite Hf. auto.
Qed.

(** Once a pair has its record, later check-ins of the day keep that
    record the one [findOne] returns and the count at 1. *)
Lemma checkin_keeps : forall today now b d k rec,
  Attendance_findOne k today (attendance d) = Some rec ->
  Attendance_count k today (attendance d) = 1 ->
  let d' := snd (checkin today now b d) in
  Attendance_findOne k today (attendance d') = Some rec /\
  Attendance_count k today (attendance d') = 1.
Proof.
  intros today now b d k rec Hfind Hcount d'. subst d'. split.
  - destruct (checkin_spec today now b d)
      as [r Hr | s e Hs Hf | s a Hs Hf Hk Hd Hv]; simpl; auto.
    rewrite Attendance_findOne_app, Hfind. reflexivity.
  - destruct (checkin_count today now b d k today) as [H | [H _]]; lia.
Qed.

Lemma checkin_all_keeps : forall today reqs d k rec,
  Attendance_findOne k today (attendance d) = Some rec ->
  Attendance_count k today (attendance d) = 1 ->
  Attendance_findOne k today (attendance (checkin_all today reqs d)) = Some rec
  /\ Attendance_count k today (attendance (checkin_all today reqs d)) = 1.
Proof.
  intros today reqs. induction reqs as [|[now b] reqs IH]; intros d k rec Hf Hc;
    simpl; [auto|].
  destruct (checkin_keeps today now b d k rec Hf Hc) as [Hf' Hc'].
  apply IH; assumption.
Qed.

(** The handler run alone always reaches its response. *)
Lemma checkin_responds : forall today now b d,
  exists r, fst (checkin today now b d) = Done r.
Proof.
  intros. destruct (checkin_spec today now b d); simpl; eauto.
Qed.

(** A second request for a pair that has its record. *)
Lemma checkin_conflict : forall today now b d s rec,
  studentId b = JStr s ->
  truthy (studentId b) = true ->
  truthy (name b) = true -> truthy (course b) = true ->
  Attendance_findOne (toUpperCase s) today (attendance d) = Some rec ->
  checkin today now b d
  = (Done (respond 409 false "Student already checked in today"
             (AttendanceData rec)), d).
Proof.
  intros today now b d s rec Hs Ht Hn Hc Hf.
  unfold checkin, checkin_run, checkin_step.
  rewrite Ht, Hn, Hc. simpl. rewrite Hs. simpl. rewrite Hf. reflexivity.
Qed.

(** C1 (Admission Gate idempotence).  When a check-in served on a day
    answers 201, it has appended exactly one record [rec] for its
    (identity, date) pair, which had none.  From then on, whatever other
    check-ins are served that day, the ledger count of the pair stays 1,
    and every check-in for the same identity (the same key once in upper
    case) that carries a name and a course answers 409 with [rec] as its
    data and leaves the whole store as it was. *)
Theorem checkin_idempotent :
  forall today now1 b1 d r1 d1,
    checkin today now1 b1 d = (Done r1, d1) ->
    status r1 = 201 ->
    exists rec,
      data r1 = AttendanceData rec /\
      call_toUpperCase (studentId b1) = Ok (Attendance.studentId rec) /\
      Attendance.date rec = today /\
      Attendance_count (Attendance.studentId rec) today (attendance d) = 0 /\
      Attendance_count (Attendance.studentId rec) today (attendance d1) = 1 /\
      forall reqs now2 b2,
        let d2 := checkin_all today reqs d1 in
        Attendance_count (Attendance.studentId rec) today (attendance d2) = 1 /\
        (call_toUpperCase (studentId b2) = Ok (Attendance.studentId rec) ->
         truthy (name b2) = true -> truthy (course b2) = true ->
         checkin today now2 b2 d2
         = (Done (respond 409 false "Student already checked in today"
                    (AttendanceData rec)), d2)).
Proof.
  intros today now1 b1 d r1 d1 Hrun Hst.
  pose proof (checkin_spec today now1 b1 d) as Hspec. rewrite Hrun in Hspec.
  inversion Hspec as [r Hr | s e Hs Hf | s a Hs Hf Hk Hd Hv]; subst.
  - destruct Hr as [Hr | Hr]; rewrite Hr in Hst; discriminate.
  - discriminate.
  - exists a. simpl.
    assert (Hc0 : Attendance_count (Attendance.studentId a)
                    (Attendance.date a) (attendance d) = 0).
    { rewrite Hk. apply Attendance_findOne_None_count. exact Hf. }
    assert (Hc1 : Attendance_count (Attendance.studentId a)
                    (Attendance.date a) (attendance d ++ [a]) = 1).
    { rewrite Attendance_count_app, Hc0, Attendance_count_single.
      rewrite !String.eqb_refl. reflexivity. }
    assert (Hf1 : Attendance_findOne (Attendance.studentId a)
                    (Attendance.date a) (attendance d ++ [a]) = Some a).
    { rewrite Attendance_findOne_app. rewrite <- Hk in Hf. rewrite Hf.
      rewrite Attendance_findOne_single, !String.eqb_refl. reflexivity. }
    repeat split; auto.
    + rewrite Hs. simpl. congruence.
    + eapply checkin_all_keeps; simpl; eassumption.
    + intros Hkey Hn Hc.
      destruct (studentId b2) as [| |?|?|s2|?|?] eqn:Hs2; try discriminate.
      simpl in Hkey. inversion Hkey as [Hk2].
      apply checkin_conflict with (s := s2); auto.
      * rewrite Hs2. simpl. rewrite <- toUpperCase_is_empty, Hk2.
        unfold Attendance_validate in Hv.
        rewrite !andb_true_iff in Hv. tauto.
      * rewrite Hk2.
        eapply checkin_all_keeps; simpl; eassumption.
Qed.

Lemma checkin_idempotent_witness :
  let b := ex_checkin "S100" "Ann" "CS" (JStr "87.7") in
  let d1 := snd (checkin "3/14/2025" 7 b ex_db0) in
  checkin "3/14/2025" 7 b ex_db0
  = (Done (respond 201 true "Attendance marked successfully"
             (AttendanceData (ex_record 7))), d1) /\
  Attendance_count "S100" "3/14/2025" (attendance d1) = 1 /\
  checkin "3/14/2025" 9 (ex_checkin "s100" "Ann B" "CS" JUndefined) d1
  = (Done (respond 409 false "Student already checked in today"
             (AttendanceData (ex_record 7))), d1).
Proof.
  intros b d1.
  destruct (checkin_idempotent "3/14/2025" 7 b ex_db0
              (respond 201 true "Attendance marked successfully"
                 (AttendanceData (ex_record 7))) d1 eq_refl eq_refl)
    as [rec [Hdata [_ [_ [_ [Hc1 Hnext]]]]]].
  simpl in Hdata. injection Hdata as <-.
  split; [reflexivity|]. split; [exact Hc1|].
  apply (Hnext [] 9%Z (ex_checkin "s100" "Ann B" "CS" JUndefined));
    reflexivity.
Defined.

(** *** Uniqueness of (identity, date) *)

Lemma checkin_at_most_one : forall today now b d,
  at_most_one (attendance d) ->
  at_most_one (attendance (snd (checkin today now b d))).
Proof.
  intros today now b d H k dt.
  destruct (checkin_count today now b d k dt) as [E | [_ E]];
    rewrite E; [apply H | lia].
Qed.

(** C3, as the code has it.  The index on (studentId, date) is not a
    unique index, so the store accepts any record that passes validation,
    a second one for a pair included; what keeps a pair to one record is
    the handler's own check before the insert: check-ins served one after
    the other never take a ledger with at most one record per pair to one
    with more. *)
Theorem attendance_unique_by_check_only :
  forallb (fun ix => negb (unique ix)) attendanceSchema_indexes = true /\
  (forall a coll,
     Attendance_validate a = true -> Attendance_save a coll = Ok (coll ++ [a]))
  /\
  (forall today reqs d,
     at_most_one (attendance d) ->
     at_most_one (attendance (checkin_all today reqs d))).
Proof.
  split; [reflexivity|]. split; [exact Attendance_save_inserts|].
  intros today reqs. induction reqs as [|[now b] reqs IH]; intros d H; simpl;
    [exact H|].
  apply IH. apply checkin_at_most_one. exact H.
Qed.

(** Two check-ins for the same student in flight at once, both reading
    the ledger before either writes: both answer 201 and the ledger holds
    two records for the pair. *)
Lemma race_duplicates :
  checkin_interleave "3/14/2025" 7 [false; true; false; true; false; true]
    (Start (ex_checkin "S100" "Ann" "CS" (JStr "87.7")))
    (Start (ex_checkin "S100" "Ann" "CS" (JStr "87.7"))) ex_db0
  = (Done (respond 201 true "Attendance marked successfully"
             (AttendanceData (ex_record 7))),
     Done (respond 201 true "Attendance marked successfully"
             (AttendanceData (ex_record 7))),
     {| students := []; attendance := [ex_record 7; ex_record 7] |})
  /\ Attendance_count "S100" "3/14/2025" [ex_record 7; ex_record 7] = 2.
Proof. split; reflexivity. Qed.

Lemma at_most_one_nil : at_most_one [].
Proof. intros k dt. unfold Attendance_count. simpl. lia. Qed.

Lemma attendance_unique_by_check_only_witness :
  Attendance_validate (ex_record 7) = true /\
  at_most_one (attendance ex_db0) /\
  Attendance_save (ex_record 7) [ex_record 7] = Ok [ex_record 7; ex_record 7] /\
  at_most_one (attendance (checkin_all "3/14/2025"
     [(7%Z, ex_checkin "S100" "Ann" "CS" (JStr "87.7"));
      (8%Z, ex_checkin "s100" "Ann" "CS" (JStr "87.7"))] ex_db0)).
Proof.
  split; [reflexivity|]. split; [exact at_most_one_nil|].
  destruct attendance_unique_by_check_only as [_ [Hsave Hseq]].
  split.
  - apply (Hsave (ex_record 7) [ex_record 7]). reflexivity.
  - apply Hseq. exact at_most_one_nil.
Defined.

(** *** Check-in and the student directory *)

(** The check-in handler neither reads nor writes the student directory. *)
Lemma checkin_step_students : forall today now pc d sts,
  checkin_step today now pc {| students := sts; attendance := attendance d |}
  = (fst (checkin_step today now pc d),
     {| students := sts;
        attendance := attendance (snd (checkin_step today now pc d)) |}).
Proof.
  intros today now pc d sts. destruct pc as [b | b t k | a | r]; simpl.
  - destruct (negb (truthy (studentId b)) || negb (truthy (name b))
              || negb (truthy (course b))); reflexivity.
  - destruct (Attendance_findOne k t (attendance d)); reflexivity.
  - destruct (Attendance_save a (attendance d)); reflexivity.
  - reflexivity.
Qed.

Lemma checkin_run_students : forall fuel today now pc d sts,
  checkin_run fuel today now pc
    {| students := sts; attendance := attendance d |}
  = (fst (checkin_run fuel today now pc d),
     {| students := sts;
        attendance := attendance (snd (checkin_run fuel today now pc d)) |}).
Proof.
  induction fuel as [|n IH]; intros today now pc d sts; simpl; [reflexivity|].
  rewrite checkin_step_students.
  destruct (checkin_step today now pc d) as [pc' d']; simpl.
  apply IH.
Qed.

(** C10, as the code has it.  The check-in handler never looks the
    identity up in the student directory.  A request whose studentId, name
    and course are strings, the studentId non-empty, name and course
    non-blank once trimmed, and whose confidence is falsy or casts to a
    number within 0..100, is answered 201 and its record appended
    whenever the ledger has no record for (studentId in upper case,
    today), whatever the directory holds.  The answer and the ledger are
    the same for every directory, and the status is one of 201, 400, 409
    and 500: there is no 404. *)
Theorem checkin_ignores_directory :
  forall today now b d,
    (forall s n c q,
        studentId b = JStr s -> name b = JStr n -> course b = JStr c ->
        s <> EmptyString -> trim n <> EmptyString -> trim c <> EmptyString -> today <> EmptyString ->
        castNumber (if truthy (confidence b) then confidence b else JNull)
        = Ok q ->
        confidence_in_range q = true ->
        Attendance_findOne (toUpperCase s) today (attendance d) = None ->
        let a := {| Attendance.studentId := toUpperCase s;
                    Attendance.name := trim n;
                    Attendance.course := trim c;
                    Attendance.checkInTime := now;
                    Attendance.date := today;
                    Attendance.confidence := q |} in
        checkin today now b d
        = (Done (respond 201 true "Attendance marked successfully"
                   (AttendanceData a)),
           {| students := students d; attendance := attendance d ++ [a] |}))
    /\ (forall sts,
          checkin today now b {| students := sts; attendance := attendance d |}
          = (fst (checkin today now b d),
             {| students := sts;
                attendance := attendance (snd (checkin today now b d)) |}))
    /\ (exists r, fst (checkin today now b d) = Done r /\
                  (status r = 201 \/ status r = 400 \/ status r = 409
                   \/ status r = 500)).
Proof.
  intros today now b d. split; [|split].
  - intros s n c q Hs Hn Hc Hs0 Hn0 Hc0 Ht Hq Hr Hf a.
    unfold checkin, checkin_run, checkin_step.
    rewrite Hs, Hn, Hc. simpl.
    assert (E : forall x, x <> EmptyString -> is_empty x = false)
      by (intros [|? ?]; simpl; congruence).
    rewrite (E s Hs0).
    assert (En : is_empty n = false).
    { destruct n; [exfalso; apply Hn0; reflexivity | reflexivity]. }
    assert (Ec : is_empty c = false).
    { destruct c; [exfalso; apply Hc0; reflexivity | reflexivity]. }
    rewrite En, Ec. simpl. rewrite Hf. simpl.
    rewrite Hs, Hn, Hc. unfold Attendance_new. rewrite Hq. simpl.
    rewrite Attendance_save_inserts; [reflexivity|].
    unfold Attendance_validate, required_string. simpl.
    rewrite toUpperCase_is_empty, (E s Hs0), (E _ Hn0), (E _ Hc0), (E _ Ht), Hr.
    reflexivity.
  - intros sts. apply checkin_run_students.
  - destruct (checkin_spec today now b d) as [r Hr | s e Hs Hf | s a Hs Hf Hk Hd Hv];
      simpl; eexists; split; try reflexivity; simpl; tauto.
Qed.

Lemma checkin_ignores_directory_witness :
  checkin "3/14/2025" 7 (ex_checkin "s100" " Ann " "CS" (JStr "87.7")) ex_db0
  = (Done (respond 201 true "Attendance marked successfully"
             (AttendanceData (ex_record 7))),
     {| students := []; attendance := [ex_record 7] |}).
Proof.
  refine (proj1 (checkin_ignores_directory "3/14/2025" 7
                   (ex_checkin "s100" " Ann " "CS" (JStr "87.7")) ex_db0)
            "s100" " Ann " "CS" (Some (877 # 10)%Q)
            eq_refl eq_refl eq_refl _ _ _ _ eq_refl eq_refl eq_refl);
    discriminate.
Defined.

(** With every field present and no record for the pair, a confidence
    above 100, or a name of blanks only, is answered 500 and nothing is
    written. *)
Lemma checkin_out_of_range :
  checkin "3/14/2025" 7 (ex_checkin "S100" "Ann" "CS" (JNum (150 # 1)%Q)) ex_db0
  = (Done (respond500 "Error marking attendance" ValidationError), ex_db0)
  /\ checkin "3/14/2025" 7 (ex_checkin "S100" " " "CS" JUndefined) ex_db0
  = (Done (respond500 "Error marking attendance" ValidationError), ex_db0).
Proof. split; reflexivity. Qed.

(** *** Registration *)

Lemma Student_findOne_In : forall k coll e,
  In e coll -> Student.studentId e = studentId_set k ->
  exists e', Student_findOne k coll = Some e'.
Proof.
  intros k coll e Hin He. unfold Student_findOne.
  destruct (find _ coll) as [e'|] eqn:Hfind; [eauto|].
  apply (find_none _ _ Hfind) in Hin. rewrite He, String.eqb_refl in Hin.
  discriminate.
Qed.

Lemma register_conflict : forall now b d s l e,
  studentId b = JStr s -> s <> EmptyString ->
  truthy (name b) = true -> truthy (course b) = true ->
  faceDescriptor b = JArr l -> List.length l = 128 ->
  Student_findOne (toUpperCase s) (students d) = Some e ->
  register now b d
  = (respond 409 false "Student ID already registered" NoData, d).
Proof.
  intros now b d s l e Hs Hs0 Hn Hc Hfd Hl Hfind.
  unfold register, register_try.
  rewrite Hs, Hn, Hc, Hfd. simpl.
  destruct s; [congruence|]. simpl. rewrite Hl. simpl in *.
  rewrite Hfind. reflexivity.
Qed.

Lemma Student_save_Ok : forall s coll coll',
  Student_save s coll = Ok coll' -> coll' = coll ++ [s].
Proof.
  intros s coll coll'. unfold Student_save.
  destruct (negb (Student_validate s)); [discriminate|].
  destruct (violates_unique student_key studentSchema_indexes coll s);
    [discriminate|].
  intros H; inversion H; reflexivity.
Qed.

Lemma register_created : forall now b d r d1,
  register now b d = (r, d1) -> status r = 201 ->
  exists s st,
    studentId b = JStr s /\ s <> EmptyString /\
    Student.studentId st = studentId_set (toUpperCase s) /\
    Student.isActive st = true /\
    students d1 = students d ++ [st] /\ attendance d1 = attendance d.
Proof.
  intros now b d r d1. unfold register, register_try.
  destruct (negb (truthy (studentId b)) || _ || _ || _) eqn:Hmiss.
  { intros H; inversion H; subst; discriminate. }
  destruct (negb (Array_isArray (faceDescriptor b)) || _).
  { intros H; inversion H; subst; discriminate. }
  destruct (studentId b) as [| |?|?|s|?|?] eqn:Hs; cbn [call_toUpperCase bind];
    try (intros H; inversion H; subst; discriminate).
  destruct (Student_findOne (toUpperCase s) (students d)).
  { intros H; inversion H; subst; discriminate. }
  destruct (call_trim (name b)) as [nm|?]; cbn [bind];
    try (intros H; inversion H; subst; discriminate).
  destruct (call_trim (course b)) as [crs|?]; cbn [bind];
    try (intros H; inversion H; subst; discriminate).
  unfold Student_new.
  destruct (match faceDescriptor b with JArr l => castNumberArray l
            | _ => Throw ValidationError end) as [q|?]; cbn [bind];
    try (intros H; inversion H; subst; discriminate).
  destruct (Student_save _ (students d)) as [coll|?] eqn:Hsave; cbn [bind];
    try (intros H; inversion H; subst; discriminate).
  apply Student_save_Ok in Hsave.
  intros H _. inversion H; subst. simpl.
  eexists s, _. repeat split; try reflexivity.
  intros ->. simpl in Hmiss. discriminate.
Qed.

Lemma Student_deactivateOne_ids : forall k coll,
  map Student.studentId (snd (Student_deactivateOne k coll))
  = map Student.studentId coll.
Proof.
  intros k coll. induction coll as [|s r IH]; simpl; [reflexivity|].
  destruct (Student.studentId s =? studentId_set k); simpl; [reflexivity|].
  destruct (Student_deactivateOne k r) as [o r']; simpl in *.
  rewrite IH. reflexivity.
Qed.

Lemma delete_student_ids : forall p d,
  map Student.studentId (students (snd (delete_student p d)))
  = map Student.studentId (students d).
Proof.
  intros p d. unfold delete_student.
  pose proof (Student_deactivateOne_ids (toUpperCase p) (students d)) as H.
  destruct (Student_deactivateOne (toUpperCase p) (students d)) as [[e|] coll];
    simpl in *; [exact H | reflexivity].
Qed.

Lemma Student_findOne_ids : forall k coll,
  In (studentId_set k) (map Student.studentId coll) ->
  exists e, Student_findOne k coll = Some e.
Proof.
  intros k coll Hin. apply in_map_iff in Hin.
  destruct Hin as [x [Hx Hin]].
  exact (Student_findOne_In k coll x Hin Hx).
Qed.

(** C5, as the code has it.  After a registration answered 201 (one
    student more in the store), registering a key that is the same once in
    upper case, with name, course and a 128-element descriptor, answers
    409 and leaves the store as it was; and it still does after any soft
    delete, which keeps the student in the store: a registration blocks
    the key whether it is active or not. *)
Theorem register_duplicate_conflict :
  forall now1 now2 b1 b2 s1 s2 l d r1 d1,
    register now1 b1 d = (r1, d1) -> status r1 = 201 ->
    studentId b1 = JStr s1 -> studentId b2 = JStr s2 ->
    toUpperCase s2 = toUpperCase s1 ->
    truthy (name b2) = true -> truthy (course b2) = true ->
    faceDescriptor b2 = JArr l -> List.length l = 128 ->
    Student_count (students d1) = S (Student_count (students d)) /\
    register now2 b2 d1
    = (respond 409 false "Student ID already registered" NoData, d1) /\
    forall p,
      let d2 := snd (delete_student p d1) in
      Student_count (students d2) = Student_count (students d1) /\
      register now2 b2 d2
      = (respond 409 false "Student ID already registered" NoData, d2).
Proof.
  intros now1 now2 b1 b2 s1 s2 l d r1 d1 Hrun Hst Hs1 Hs2 Hup Hn Hc Hfd Hl.
  destruct (register_created _ _ _ _ _ Hrun Hst)
    as [s [st [Hs [Hs0 [Hid [_ [Hcoll _]]]]]]].
  rewrite Hs1 in Hs. inversion Hs; subst s.
  assert (Hs20 : s2 <> EmptyString).
  { intros ->. destruct s1; [congruence | discriminate]. }
  assert (Hin : In (studentId_set (toUpperCase s2))
                   (map Student.studentId (students d1))).
  { rewrite Hcoll, map_app, Hup, <- Hid. apply in_or_app. right. left.
    reflexivity. }
  split; [|split].
  - unfold Student_count. rewrite Hcoll, length_app. simpl. lia.
  - destruct (Student_findOne_ids _ _ Hin) as [e Hf].
    eapply register_conflict; eauto.
  - intros p d2. subst d2. split.
    + unfold Student_count.
      rewrite <- (length_map Student.studentId), delete_student_ids,
        length_map. reflexivity.
    + rewrite <- (delete_student_ids p d1) in Hin.
      destruct (Student_findOne_ids _ _ Hin) as [e Hf].
      eapply register_conflict; eauto.
Qed.

(** Register S100, soft-delete it so that no active student is left, and
    register S100 again: 409. *)
Lemma register_after_soft_delete :
  let d1 := snd (register 1 (ex_register "S100" ex_descriptor) ex_db0) in
  let d2 := snd (delete_student "S100" d1) in
  status (fst (register 1 (ex_register "S100" ex_descriptor) ex_db0)) = 201 /\
  status (fst (delete_student "S100" d1)) = 200 /\
  filter Student.isActive (students d2) = [] /\
  register 2 (ex_register "S100" ex_descriptor) d2
  = (respond 409 false "Student ID already registered" NoData, d2).
Proof. repeat split; vm_compute; reflexivity. Qed.

Lemma register_duplicate_conflict_witness :
  let d1 := snd (register 1 (ex_register "S100" ex_descriptor) ex_db0) in
  status (fst (register 1 (ex_register "S100" ex_descriptor) ex_db0)) = 201 /\
  toUpperCase "s100" = toUpperCase "S100" /\
  register 2 (ex_register "s100" ex_descriptor) d1
  = (respond 409 false "Student ID already registered" NoData, d1).
Proof.
  intros d1. split; [reflexivity|]. split; [reflexivity|].
  refine (proj1 (proj2
    (register_duplicate_conflict 1 2 (ex_register "S100" ex_descriptor)
       (ex_register "s100" ex_descriptor) "S100" "s100" (repeat (JNum 0) 128)
       ex_db0 (fst (register 1 (ex_register "S100" ex_descriptor) ex_db0)) d1
       _ _ _ _ _ _ _ _ _))); reflexivity.
Defined.

(** C9, as the code has it.  A registration whose faceDescriptor is not
    an array, or is an array whose length is not 128, is answered 400 and
    the store is unchanged, whatever the other fields are. *)
Theorem register_rejects_wrong_length :
  forall now b d,
    (forall l, faceDescriptor b = JArr l -> List.length l <> 128) ->
    status (fst (register now b d)) = 400 /\ snd (register now b d) = d.
Proof.
  intros now b d H. unfold register, register_try.
  destruct (negb (truthy (studentId b)) || _ || _ || _); [split; reflexivity|].
  destruct (faceDescriptor b) as [| |?|?|?|l|?] eqn:Hfd; simpl;
    try (split; reflexivity).
  specialize (H l eq_refl). apply Nat.eqb_neq in H. rewrite H. simpl.
  split; reflexivity.
Qed.

Lemma register_rejects_wrong_length_witness :
  List.length (repeat (JNum 0) 127) <> 128 /\
  status (fst (register 1 (ex_register "S100" (JArr (repeat (JNum 0) 127)))
                 ex_db0)) = 400 /\
  snd (register 1 (ex_register "S100" (JArr (repeat (JNum 0) 127))) ex_db0)
  = ex_db0.
Proof.
  split; [vm_compute; discriminate|].
  apply (register_rejects_wrong_length 1
           (ex_register "S100" (JArr (repeat (JNum 0) 127))) ex_db0).
  intros l Hl. inversion Hl; subst. vm_compute. discriminate.
Defined.

(** The guard does not look at the elements: 128 strings that are not
    numerals are answered 500, 128 numeral strings are cast and the
    student is created with 201. *)
Lemma register_non_numbers_not_400 :
  forallb is_number (repeat (JStr "x") 128) = false /\
  status (fst (register 1 (ex_register "S100" (JArr (repeat (JStr "x") 128)))
                 ex_db0)) = 500 /\
  forallb is_number (repeat (JStr "1") 128) = false /\
  status (fst (register 1 (ex_register "S100" (JArr (repeat (JStr "1") 128)))
                 ex_db0)) = 201 /\
  Student_count
    (students (snd (register 1
       (ex_register "S100" (JArr (repeat (JStr "1") 128))) ex_db0))) = 1.
Proof. repeat split; vm_compute; reflexivity. Qed.

End ServerSpec.

(* ================================================================= *)
(** * Properties of the client *)

Module ClientSpec.
Import JsString Client.

Section Generic.
Context {N : JsNumber}.

(** *** The distance *)

Lemma reduce_from_shift : forall a y b i acc,
  reduce_from (square_term (y :: b)) (S i) a acc = reduce_from (square_term b) i a acc.
Proof.
  induction a as [|x a IH]; intros y b i acc; simpl; [reflexivity|].
  rewrite IH. reflexivity.
Qed.

Lemma reduce_sum_squares : forall a b acc,
  List.length a = List.length b ->
  reduce_from (square_term b) 0 a acc = sum_squares acc a b.
Proof.
  induction a as [|x a IH]; intros [|y b] acc Hlen; simpl in *;
    try discriminate; [reflexivity|].
  rewrite reduce_from_shift. apply IH. lia.
Qed.

Lemma euclideanDistance_formula : forall a b,
  List.length a = List.length b ->
  euclideanDistance a b = Math_sqrt (sum_squares (lit 0) a b).
Proof.
  intros a b Hlen. unfold euclideanDistance, reduce.
  change (fun sum val i => add sum (Math_pow (sub val (ToNumber (nth_error b i))) 2))
    with (square_term b).
  rewrite reduce_sum_squares by assumption. reflexivity.
Qed.

Lemma euclideanDistance_firstn : forall a b,
  List.length a <= List.length b ->
  euclideanDistance a b = euclideanDistance a (firstn (List.length a) b).
Proof.
  intros a b Hlen. unfold euclideanDistance, reduce.
  f_equal.
  change (reduce_from (square_term b) 0 a (lit 0)
          = reduce_from (square_term (firstn (List.length a) b)) 0 a (lit 0)).
  generalize (lit 0). revert b Hlen.
  induction a as [|x a IH]; intros b Hlen acc; simpl; [reflexivity|].
  destruct b as [|y b]; simpl in Hlen; [lia|].
  simpl. rewrite !reduce_from_shift. apply IH. lia.
Qed.

(** *** The aggregator *)

Lemma map_from_length : forall {A B} (f : A -> nat -> B) l i,
  List.length (map_from f i l) = List.length l.
Proof.
  intros A B f l. induction l as [|x l IH]; intros i; simpl;
    [reflexivity | rewrite IH; reflexivity].
Qed.

Lemma map_from_nth_error : forall {A B} (f : A -> nat -> B) l i j x,
  nth_error l j = Some x ->
  nth_error (map_from f i l) j = Some (f x (i + j)).
Proof.
  intros A B f l. induction l as [|y l IH]; intros i [|j] x H; simpl in *;
    try discriminate.
  - inversion H. rewrite Nat.add_0_r. reflexivity.
  - rewrite (IH (S i) j x H). f_equal. f_equal. lia.
Qed.

Lemma avgDescriptor_length : forall samples,
  List.length (avgDescriptor samples) = List.length (nth 0 samples []).
Proof. intros. unfold avgDescriptor, Array_map. apply map_from_length. Qed.

(** The values the samples hold at index [i]. *)
Lemma samples_column : forall (samples : list (list num)) i,
  (forall s, In s samples -> i < List.length s) ->
  exists xs, Forall2 (fun s x => nth_error s i = Some x) samples xs.
Proof.
  induction samples as [|s r IH]; intros i H.
  - exists []. constructor.
  - destruct (IH i) as [xs Hxs]; [intros; apply H; right; assumption|].
    destruct (nth_error s i) as [x|] eqn:E.
    + exists (x :: xs). constructor; assumption.
    + apply nth_error_None in E. specialize (H s (or_introl eq_refl)). lia.
Qed.

Lemma fold_column : forall (samples : list (list num)) i xs acc,
  Forall2 (fun s x => nth_error s i = Some x) samples xs ->
  fold_left (fun a sample => add a (ToNumber (nth_error sample i))) samples acc
  = fold_left add xs acc.
Proof.
  intros samples i xs acc H. revert acc.
  induction H as [|s x r xs Hx _ IH]; intros acc; simpl; [reflexivity|].
  rewrite Hx. simpl. apply IH.
Qed.

(** Samples of one length: the averaged descriptor has that length and
    holds, at every index, the mean of the samples' values there. *)
Lemma avgDescriptor_mean :
  forall samples len,
    3 <= List.length samples ->
    (forall s, In s samples -> List.length s = len) ->
    List.length (avgDescriptor samples) = len /\
    forall i, i < len ->
      exists xs,
        Forall2 (fun s x => nth_error s i = Some x) samples xs /\
        nth_error (avgDescriptor samples) i = Some (mean xs).
Proof.
  intros samples len HK Hlen.
  destruct samples as [|s0 r] eqn:Es; [simpl in HK; lia|]. rewrite <- Es in *.
  assert (H0 : nth 0 samples [] = s0) by (rewrite Es; reflexivity).
  assert (Hl0 : List.length s0 = len) by (apply Hlen; rewrite Es; left; reflexivity).
  split.
  - rewrite avgDescriptor_length, H0. exact Hl0.
  - intros i Hi.
    destruct (samples_column samples i) as [xs Hxs].
    { intros s Hs. rewrite (Hlen s Hs). exact Hi. }
    exists xs. split; [exact Hxs|].
    destruct (nth_error s0 i) as [x0|] eqn:E0.
    2:{ apply nth_error_None in E0. lia. }
    unfold avgDescriptor, Array_map. rewrite H0.
    rewrite (map_from_nth_error _ s0 0 i x0 E0). simpl Nat.add.
    rewrite (fold_column samples i xs _ Hxs).
    unfold mean. rewrite (Forall2_length Hxs). reflexivity.
Qed.

(** C8, as the code has it.  With fewer than three samples the register
    handler stops at a modal and sends nothing.  With three or more (and
    the form filled in) it sends the registration with the averaged
    descriptor, as long as the first sample, whatever the lengths of the
    samples are: no length is checked. *)
Theorem aggregator_guard :
  forall reg_id reg_name reg_course samples,
    let out := registerStudent_click reg_id reg_name reg_course samples in
    (List.length samples < 3 -> out = MissingFields \/ out = MissingFaceSamples)
    /\ (3 <= List.length samples ->
        out = MissingFields \/
        (out = PostRegister (toUpperCase (trim reg_id)) (trim reg_name)
                 (trim reg_course) (avgDescriptor samples) /\
         List.length (avgDescriptor samples)
         = List.length (nth 0 samples []))).
Proof.
  intros reg_id reg_name reg_course samples out. subst out.
  unfold registerStudent_click.
  destruct (is_empty _ || _ || _); [split; auto|].
  split; intros H.
  - apply Nat.ltb_lt in H. rewrite H. auto.
  - apply Nat.ltb_ge in H. rewrite H. right. split; [reflexivity|].
    apply avgDescriptor_length.
Qed.

(** *** The matcher *)

Context {L : JsNumberLaws N}.

Lemma reduce_from_NaN : forall a b i,
  reduce_from (square_term b) i a NaN = NaN.
Proof.
  induction a as [|x a IH]; intros b i; simpl; [reflexivity|].
  unfold square_term at 2. rewrite add_NaN_l. apply IH.
Qed.

Lemma euclideanDistance_short : forall a b,
  List.length b < List.length a -> euclideanDistance a b = NaN.
Proof.
  intros a b Hlen. unfold euclideanDistance, reduce.
  change (Math_sqrt (reduce_from (square_term b) 0 a (lit 0)) = NaN).
  enough (H : forall acc, reduce_from (square_term b) 0 a acc = NaN)
    by (rewrite H; apply sqrt_NaN).
  revert b Hlen. induction a as [|x a IH]; intros b Hlen acc; simpl in *; [lia|].
  destruct b as [|y b].
  - unfold square_term at 2. simpl. rewrite sub_NaN_r, pow_NaN_2, add_NaN_r.
    apply reduce_from_NaN.
  - rewrite reduce_from_shift. apply IH. simpl in Hlen. lia.
Qed.

Lemma best_step_eq : forall fd bm bd x,
  best_step fd (bm, bd) x
  = if lt (dist fd x) bd then (Some x, dist fd x) else (bm, bd).
Proof. reflexivity. Qed.

(** The loop invariant of the [forEach]: either nothing was below the
    running best, or the best is now the distance of an entry that was,
    and nothing seen is below it. *)
Lemma fold_best_step : forall fd l bm bd,
  let r := fold_left (best_step fd) l (bm, bd) in
  (r = (bm, bd) /\ forall s, In s l -> lt (dist fd s) bd = false)
  \/ (exists s, In s l /\ r = (Some s, dist fd s) /\
                lt (dist fd s) bd = true /\
                forall s', In s' l -> lt (dist fd s') (dist fd s) = false).
Proof.
  intros fd l. induction l as [|x l IH]; intros bm bd; simpl.
  - left. split; [reflexivity | tauto].
  - rewrite best_step_eq.
    destruct (lt (dist fd x) bd) eqn:Hx.
    + right.
      destruct (IH (Some x) (dist fd x)) as [[Hr Hall] | [s [Hin [Hr [Hlt Hall]]]]].
      * exists x. split; [auto|]. split; [exact Hr|]. split; [exact Hx|].
        intros s' [<- | Hs']; [apply lt_irreflexive | auto].
      * exists s. split; [auto|]. split; [exact Hr|].
        split; [eapply lt_transitive; eauto|].
        intros s' [<- | Hs']; [|auto].
        destruct (lt (dist fd x) (dist fd s)) eqn:E; [|reflexivity].
        rewrite <- (lt_irreflexive (dist fd x)). symmetry.
        eapply lt_transitive; eauto.
    + destruct (IH bm bd) as [[Hr Hall] | [s [Hin [Hr [Hlt Hall]]]]].
      * left. split; [exact Hr|]. intros s [<- | Hs]; auto.
      * right. exists s. split; [auto|]. split; [exact Hr|].
        split; [exact Hlt|].
        intros s' [<- | Hs']; [|auto].
        destruct (lt (dist fd x) (dist fd s)) eqn:E; [|reflexivity].
        rewrite <- Hx. symmetry. eapply lt_transitive; eauto.
Qed.

Lemma find_best_spec : forall fd l,
  (find_best fd l = (None, lit 0.6) /\
   forall s, In s l -> lt (dist fd s) (lit 0.6) = false)
  \/ (exists s, In s l /\ find_best fd l = (Some s, dist fd s) /\
                lt (dist fd s) (lit 0.6) = true /\
                forall s', In s' l -> lt (dist fd s') (dist fd s) = false).
Proof. intros fd l. apply fold_best_step. Qed.

Lemma verify_no_match : forall fd rest l,
  (forall s, In s l -> lt (dist fd s) (lit 0.6) = false) ->
  no_match (startVerify_click (fd :: rest) l).
Proof.
  intros fd rest l Hall. unfold startVerify_click, no_match.
  destruct (List.length l =? 0)%nat; [auto|].
  destruct (find_best_spec fd l) as [[-> _] | [s [Hin [_ [Hlt _]]]]]; [auto|].
  rewrite (Hall s Hin) in Hlt. discriminate.
Qed.

Lemma verify_match : forall fd rest l,
  (exists s, In s l /\ lt (dist fd s) (lit 0.6) = true) ->
  exists best,
    In best l /\
    lt (dist fd best) (lit 0.6) = true /\
    (forall s, In s l -> lt (dist fd s) (dist fd best) = false) /\
    startVerify_click (fd :: rest) l
    = PostCheckin (id best) (name best) (course best)
        (toFixed (mul (sub (lit 1) (dist fd best)) (lit 100)) 1).
Proof.
  intros fd rest l [s0 [Hin0 Hlt0]]. unfold startVerify_click.
  destruct l as [|x l]; [destruct Hin0|]. cbn [List.length Nat.eqb].
  destruct (find_best_spec fd (x :: l))
    as [[_ Hall] | [s [Hin [-> [Hlt Hmin]]]]].
  - rewrite (Hall s0 Hin0) in Hlt0. discriminate.
  - exists s. repeat split; auto.
Qed.

Lemma startVerify_click_post : forall fd rest l i n c conf,
  startVerify_click (fd :: rest) l = PostCheckin i n c conf ->
  exists best,
    In best l /\ find_best fd l = (Some best, dist fd best) /\
    lt (dist fd best) (lit 0.6) = true /\
    (forall s, In s l -> lt (dist fd s) (dist fd best) = false) /\
    i = id best /\ n = name best /\ c = course best /\
    conf = toFixed (mul (sub (lit 1) (dist fd best)) (lit 100)) 1.
Proof.
  intros fd rest l i n c conf. unfold startVerify_click.
  destruct (List.length l =? 0)%nat; [discriminate|].
  destruct (find_best_spec fd l) as [[-> _] | [s [Hin [E [Hlt Hmin]]]]];
    [discriminate|].
  rewrite E. intros H. inversion H; subst. exists s. repeat split; auto.
Qed.

Lemma euclideanDistance_self : forall v,
  (forall x, In x v -> isFinite x = true) ->
  euclideanDistance v v = lit 0.
Proof.
  intros v Hfin. rewrite euclideanDistance_formula by reflexivity.
  enough (H : sum_squares (lit 0) v v = lit 0) by (rewrite H; apply sqrt_lit_0).
  induction v as [|x v IH]; simpl; [reflexivity|].
  rewrite sub_diag by (apply Hfin; left; reflexivity).
  rewrite pow_lit_0, add_lit_0. apply IH. intros y Hy. apply Hfin. right. exact Hy.
Qed.

Lemma lt_true_not_NaN : forall x y, lt x y = true -> x <> NaN /\ y <> NaN.
Proof.
  intros x y H. split; intros ->.
  - rewrite lt_NaN_l in H. discriminate.
  - rewrite lt_NaN_r in H. discriminate.
Qed.

(** The confidence of a posted check-in is [toFixed(1)] of (1 - d) * 100
    at the distance [d] of the student posted, the closest one. *)
Lemma confidence_toFixed : forall fd rest l i n c conf,
  startVerify_click (fd :: rest) l = PostCheckin i n c conf ->
  exists best,
    In best l /\
    (forall s, In s l -> lt (dist fd s) (dist fd best) = false) /\
    i = id best /\
    conf = toFixed (mul (sub (lit 1) (dist fd best)) (lit 100)) 1.
Proof.
  intros fd rest l i n c conf H.
  destruct (startVerify_click_post _ _ _ _ _ _ _ H)
    as [best [Hin [_ [_ [Hmin [Hi [_ [_ Hc]]]]]]]].
  exists best. auto.
Qed.

(** A probe of finite numbers that equals an enrolled vector. *)
Lemma confidence_identical : forall fd rest l,
  (forall x, In x fd -> isFinite x = true) ->
  (exists s, In s l /\ faceData s = fd) ->
  exists i n c, startVerify_click (fd :: rest) l = PostCheckin i n c "100.0".
Proof.
  intros fd rest l Hfin [s [Hin Hs]].
  assert (Hd : dist fd s = lit 0).
  { unfold dist. rewrite Hs. apply euclideanDistance_self. exact Hfin. }
  destruct (verify_match fd rest l) as [b [Hb [Hlt [Hmin Hout]]]].
  { exists s. split; [exact Hin|]. rewrite Hd. apply lt_0_threshold. }
  assert (Hz : dist fd b = lit 0).
  { apply lt_neither.
    - apply (lt_true_not_NaN _ _ Hlt).
    - apply (lt_true_not_NaN _ _ lt_0_threshold).
    - unfold dist, euclideanDistance. apply sqrt_not_negative.
    - rewrite <- Hd. apply Hmin. exact Hin. }
  rewrite Hz, sub_lit_1_0, mul_lit_1_100, toFixed_lit_100 in Hout.
  eauto.
Qed.

(** C7, as the code has it.  The matcher checks no length.  An enrolled
    vector shorter than the probe is at distance NaN and never becomes the
    best match; one at least as long is compared on its first components,
    as many as the probe has; where every enrolled vector is shorter the
    result is NoMatch. *)
Theorem matcher_no_length_check :
  forall faceDescriptor rest studentDescriptors,
    (forall s best,
        List.length (faceData s) < List.length faceDescriptor ->
        dist faceDescriptor s = NaN /\ best_step faceDescriptor best s = best)
    /\ (forall s,
          List.length faceDescriptor <= List.length (faceData s) ->
          dist faceDescriptor s
          = euclideanDistance faceDescriptor
              (firstn (List.length faceDescriptor) (faceData s)))
    /\ ((forall s, In s studentDescriptors ->
           List.length (faceData s) < List.length faceDescriptor) ->
        no_match (startVerify_click (faceDescriptor :: rest) studentDescriptors)).
Proof.
  intros fd rest l. split; [|split].
  - intros s best Hlen.
    assert (E : dist fd s = NaN) by (apply euclideanDistance_short; exact Hlen).
    split; [exact E|]. unfold best_step. fold (dist fd s).
    rewrite E, lt_NaN_l. reflexivity.
  - intros s Hlen. apply euclideanDistance_firstn. exact Hlen.
  - intros Hall. apply verify_no_match.
    intros s Hin. unfold dist.
    rewrite euclideanDistance_short by (apply Hall; exact Hin).
    apply lt_NaN_l.
Qed.

End Generic.
End ClientSpec.

(* ================================================================= *)
(** * The real-number model satisfies the laws *)

Module RealFacts.
Import JsString Client RealModel.
Local Open Scope R_scope.

Lemma Q2R_0 : Q2R 0 = 0.
Proof. unfold Q2R. simpl. lra. Qed.

Lemma Q2R_1 : Q2R 1 = 1.
Proof. unfold Q2R. simpl. lra. Qed.

Lemma Q2R_100 : Q2R 100 = 100.
Proof. unfold Q2R. simpl. lra. Qed.

Lemma Q2R_threshold : Q2R 0.6 = 6 / 10.
Proof. unfold Q2R. simpl. lra. Qed.

Lemma rlt_true : forall x y, x < y -> rlt (Real x) (Real y) = true.
Proof. intros x y H. simpl. destruct (Rlt_dec x y); [reflexivity | contradiction]. Qed.

Lemma rlt_false : forall x y, ~ x < y -> rlt (Real x) (Real y) = false.
Proof. intros x y H. simpl. destruct (Rlt_dec x y); [contradiction | reflexivity]. Qed.

Lemma rlt_true_inv : forall a b, rlt a b = true ->
  exists x y, a = Real x /\ b = Real y /\ x < y.
Proof.
  intros [x|] [y|]; simpl; try discriminate.
  destruct (Rlt_dec x y); [eauto | discriminate].
Qed.

Lemma rlt_false_inv : forall x y, rlt (Real x) (Real y) = false -> ~ x < y.
Proof. intros x y. simpl. destruct (Rlt_dec x y); [discriminate | auto]. Qed.

Lemma rsqrt_nonneg : forall x, 0 <= x -> rsqrt (Real x) = Real (sqrt x).
Proof.
  intros x H. simpl. destruct (Rlt_dec x 0); [lra | reflexivity].
Qed.

(** [toFixed(1)] of a non-negative real whose tenths round to [n]. *)
Lemma rtoFixed_1 : forall x n,
  0 <= x -> IZR n <= x * 10 + / 2 < IZR n + 1 ->
  rtoFixed (Real x) 1
  = (decimal (n / 10) ++ "." ++ pad_left 1 (decimal (n mod 10)))%string.
Proof.
  intros x n Hx Hn. unfold rtoFixed.
  destruct (Rlt_dec x 0) as [H|_]; [lra|].
  change (10 ^ Z.of_nat 1)%Z with 10%Z.
  rewrite <- (Int_part_spec (x * 10 + / 2) n) by lra.
  reflexivity.
Qed.

#[export] Instance RealNumberLaws : JsNumberLaws RealNumber.
Proof.
  constructor; cbn [num lit NaN add sub mul div Math_pow Math_sqrt lt isFinite
                    toFixed RealNumber].
  - intros [x|]; [apply rlt_false; lra | reflexivity].
  - intros a b c Hab Hbc.
    destruct (rlt_true_inv _ _ Hab) as [x [y [-> [-> Hxy]]]].
    destruct (rlt_true_inv _ _ Hbc) as [y' [z [E [-> Hyz]]]].
    inversion E; subst. apply rlt_true. lra.
  - reflexivity.
  - intros [x|]; reflexivity.
  - intros [x|] [y|] Hx Hy Hxy Hyx; try congruence.
    apply rlt_false_inv in Hxy, Hyx. f_equal. lra.
  - reflexivity.
  - intros [x|]; reflexivity.
  - intros [x|]; reflexivity.
  - reflexivity.
  - reflexivity.
  - intros [x|]; [|reflexivity]. simpl rsqrt.
    destruct (Rlt_dec x 0); [reflexivity|].
    apply rlt_false. rewrite Q2R_0. pose proof (sqrt_pos x). lra.
  - intros [x|]; [|discriminate]. intros _. simpl. f_equal. rewrite Q2R_0. lra.
  - simpl. f_equal. rewrite Q2R_0. lra.
  - simpl. f_equal. lra.
  - rewrite Q2R_0, rsqrt_nonneg by lra. f_equal. apply R_sqrt.sqrt_0.
  - simpl. f_equal. rewrite Q2R_0. lra.
  - simpl. f_equal. rewrite Q2R_1. lra.
  - rewrite (rtoFixed_1 (Q2R 100) 1000); [reflexivity | |].
    + rewrite Q2R_100. lra.
    + rewrite Q2R_100. lra.
  - apply rlt_true. rewrite Q2R_0, Q2R_threshold. lra.
Qed.

(** [toFixed(1)] of a non-negative real prints the tenths nearest to it. *)
Lemma rtoFixed_1_rounds : forall x,
  0 <= x ->
  exists n : Z,
    rtoFixed (Real x) 1
    = (decimal (n / 10) ++ "." ++ pad_left 1 (decimal (n mod 10)))%string
    /\ Rabs (IZR n / 10 - x) <= 1 / 20.
Proof.
  intros x Hx. exists (Int_part (x * 10 + / 2)).
  destruct (base_Int_part (x * 10 + / 2)) as [Hle Hgt].
  split.
  - apply rtoFixed_1; [exact Hx | lra].
  - apply Rabs_le. lra.
Qed.

(** *** The client's formulas, read over the reals *)

Lemma sum_sq_nonneg : forall a b, 0 <= sum_sq a b.
Proof.
  induction a as [|x a IH]; intros [|y b]; cbn [sum_sq]; try lra.
  specialize (IH b). pose proof (pow2_ge_0 (x - y)). lra.
Qed.

Lemma sum_squares_real : forall a b acc,
  sum_squares (N := RealNumber) (Real acc) (map Real a) (map Real b)
  = Real (acc + sum_sq a b).
Proof.
  induction a as [|x a IH]; intros [|y b] acc; simpl;
    try (f_equal; lra).
  rewrite IH. f_equal. lra.
Qed.

(** Over the reals [euclideanDistance] is the Euclidean distance. *)
Lemma euclideanDistance_real : forall a b,
  List.length a = List.length b ->
  euclideanDistance (N := RealNumber) (map Real a) (map Real b)
  = Real (sqrt (sum_sq a b)).
Proof.
  intros a b Hlen.
  rewrite ClientSpec.euclideanDistance_formula by (rewrite !length_map; exact Hlen).
  cbn [lit Math_sqrt RealNumber]. rewrite sum_squares_real, Q2R_0.
  pose proof (sum_sq_nonneg a b).
  rewrite rsqrt_nonneg by lra. f_equal. f_equal. lra.
Qed.

Lemma fold_left_radd : forall rs acc,
  fold_left radd (map Real rs) (Real acc) = Real (acc + sum rs).
Proof.
  induction rs as [|x rs IH]; intros acc; simpl; [f_equal; lra|].
  rewrite IH. f_equal. unfold sum. simpl. lra.
Qed.

(** Over the reals [mean] is the sum divided by the count. *)
Lemma mean_real : forall rs,
  rs <> [] ->
  mean (N := RealNumber) (map Real rs) = Real (sum rs / INR (List.length rs)).
Proof.
  intros rs Hne. unfold mean. cbn [lit add div RealNumber].
  rewrite fold_left_radd, Q2R_0, length_map.
  assert (E : Q2R (inject_Z (Z.of_nat (List.length rs))) = INR (List.length rs)).
  { unfold Q2R. simpl. rewrite <- INR_IZR_INZ. lra. }
  rewrite E. simpl.
  destruct (Req_dec_T (INR (List.length rs)) 0) as [H|H].
  - exfalso. destruct rs as [|x rs]; [congruence|].
    revert H. apply not_0_INR. discriminate.
  - f_equal. f_equal. lra.
Qed.

End RealFacts.

(* ================================================================= *)
(** * The matcher, the confidence and the aggregator, over the reals too *)

Module ClientReal.
Import JsString Client RealModel ClientSpec RealFacts.
Local Open Scope R_scope.

Lemma column_real : forall (samples : list (list R)) i xs,
  Forall2 (fun s x => nth_error s i = Some x) (map (map Real) samples) xs ->
  (forall s, In s samples -> (i < List.length s)%nat) ->
  xs = map Real (map (fun s => nth i s 0) samples).
Proof.
  induction samples as [|s rest IH]; intros i xs H Hlen;
    inversion H as [|s' x r' xs' Hx Hrest]; subst; simpl; [reflexivity|].
  f_equal.
  - rewrite nth_error_map in Hx.
    rewrite (nth_error_nth' s 0) in Hx by (apply Hlen; left; reflexivity).
    simpl in Hx. congruence.
  - apply IH; [exact Hrest|]. intros t Ht. apply Hlen. right. exact Ht.
Qed.

(** C2 (Matcher decision).  In any arithmetic that obeys the laws: the
    distance to an enrolled vector of the probe's length is the square
    root of the sum of the squared differences; if no enrolled vector is
    below the threshold 0.6 (the empty set included) the handler reports
    NoMatch; if one is, the handler posts the check-in of an enrolled
    student whose distance is below 0.6 and which no enrolled student is
    strictly closer than.  Over the reals that distance is the Euclidean
    distance sqrt(sum (a_i - b_i)^2). *)
Theorem matcher_decision :
  (forall (N : JsNumber) (L : JsNumberLaws N)
          faceDescriptor rest studentDescriptors,
      let out :=
        startVerify_click (faceDescriptor :: rest) studentDescriptors in
      (forall s, In s studentDescriptors ->
         List.length (faceData s) = List.length faceDescriptor ->
         dist faceDescriptor s
         = Math_sqrt (sum_squares (lit 0) faceDescriptor (faceData s)))
      /\ ((forall s, In s studentDescriptors ->
             lt (dist faceDescriptor s) (lit 0.6) = false) ->
          no_match out)
      /\ ((exists s, In s studentDescriptors /\
                     lt (dist faceDescriptor s) (lit 0.6) = true) ->
          exists best,
            In best studentDescriptors /\
            lt (dist faceDescriptor best) (lit 0.6) = true /\
            (forall s, In s studentDescriptors ->
               lt (dist faceDescriptor s) (dist faceDescriptor best) = false)
            /\ exists confidence,
                 out = PostCheckin (id best) (name best) (course best)
                         confidence))
  /\ (forall a b : list R,
        List.length a = List.length b ->
        euclideanDistance (map Real a) (map Real b)
        = Real (sqrt (sum_sq a b))).
Proof.
  split; [|exact euclideanDistance_real].
  intros N L fd rest l out. subst out. split; [|split].
  - intros s _ Hlen. apply euclideanDistance_formula. auto.
  - apply verify_no_match.
  - intros H. destruct (verify_match fd rest l H) as [b [Hin [Hlt [Hmin E]]]].
    exists b. repeat split; auto. eexists. exact E.
Qed.

(** C4 (Descriptor Aggregator).  For three or more samples, all of one
    length, the averaged descriptor has that length, and its component at
    every index [i] is the arithmetic mean of the samples' components at
    [i]: their sum over their count, in any arithmetic; over the reals,
    the sum of the K values divided by K.  The aggregator is a function
    of the samples alone. *)
Theorem aggregator_mean :
  (forall (N : JsNumber) (samples : list (list num)) (len : nat),
      (3 <= List.length samples)%nat ->
      (forall s, In s samples -> List.length s = len) ->
      List.length (avgDescriptor samples) = len /\
      forall i, (i < len)%nat ->
        exists xs,
          Forall2 (fun s x => nth_error s i = Some x) samples xs /\
          nth_error (avgDescriptor samples) i = Some (mean xs))
  /\ (forall (samples : list (list R)) (len : nat),
        (3 <= List.length samples)%nat ->
        (forall s, In s samples -> List.length s = len) ->
        forall i, (i < len)%nat ->
          nth_error (avgDescriptor (map (map Real) samples)) i
          = Some (Real (sum (map (fun s => nth i s 0) samples)
                        / INR (List.length samples)))).
Proof.
  split; [intros N; apply avgDescriptor_mean|].
  intros samples len HK Hlen i Hi.
  destruct (avgDescriptor_mean (N := RealNumber) (map (map Real) samples) len)
    as [_ H].
  - rewrite length_map. exact HK.
  - intros s Hs. apply in_map_iff in Hs. destruct Hs as [t [<- Ht]].
    rewrite length_map. apply Hlen. exact Ht.
  - destruct (H i Hi) as [xs [Hxs ->]]. f_equal.
    rewrite (column_real samples i xs Hxs).
    + rewrite mean_real, !length_map; [reflexivity|].
      destruct samples; [simpl in HK; lia | discriminate].
    + intros s Hs. rewrite (Hlen s Hs). exact Hi.
Qed.

Lemma confidence_real : forall fd rest l i n c conf,
  startVerify_click (N := RealNumber) (fd :: rest) l = PostCheckin i n c conf ->
  exists best d (m : Z),
    In best l /\ dist fd best = Real d /\ 0 <= d < 6 / 10 /\
    conf = (decimal (m / 10) ++ "." ++ pad_left 1 (decimal (m mod 10)))%string
    /\ Rabs (IZR m / 10 - (1 - d) * 100) <= 1 / 20.
Proof.
  intros fd rest l i n c conf H.
  destruct (startVerify_click_post (N := RealNumber) _ _ _ _ _ _ _ H)
    as [best [Hin [_ [Hlt [_ [_ [_ [_ Hc]]]]]]]].
  destruct (rlt_true_inv _ _ Hlt) as [d [t [Hd [Ht Hdt]]]].
  cbn [lit RealNumber] in Ht. inversion Ht as [Et]. rewrite Q2R_threshold in Et.
  assert (Hd0 : 0 <= d).
  { pose proof (sqrt_not_negative (N := RealNumber)
                  (reduce (square_term (faceData best)) fd (lit 0))) as Hn.
    change (lt (dist fd best) (lit 0) = false) in Hn.
    rewrite Hd in Hn. cbn [lt lit RealNumber] in Hn.
    apply rlt_false_inv in Hn. rewrite Q2R_0 in Hn. lra. }
  destruct (rtoFixed_1_rounds ((1 - d) * 100)) as [m [Hm Hr]]; [lra|].
  exists best, d, m. repeat split; try assumption; try lra.
  rewrite Hc, Hd. cbn [toFixed mul sub lit RealNumber rsub rmul].
  rewrite Q2R_1, Q2R_100. exact Hm.
Qed.

(** C6, as the code has it.  In any arithmetic that obeys the laws, the
    confidence sent for a match is the string [((1 - d) * 100).toFixed(1)],
    [d] the minimum distance, and a probe of finite numbers equal to an
    enrolled vector is matched with "100.0".  Over the reals that string
    is the decimal of m / 10, [m] an integer with
    |m / 10 - (1 - d) * 100| <= 0.05: (1 - d) * 100 rounded to one decimal
    place. *)
Theorem confidence_reported :
  (forall (N : JsNumber) (L : JsNumberLaws N)
          faceDescriptor rest studentDescriptors,
      let out :=
        startVerify_click (faceDescriptor :: rest) studentDescriptors in
      (forall i n c confidence,
          out = PostCheckin i n c confidence ->
          exists best,
            In best studentDescriptors /\
            (forall s, In s studentDescriptors ->
               lt (dist faceDescriptor s) (dist faceDescriptor best) = false)
            /\ i = id best
            /\ confidence
               = toFixed (mul (sub (lit 1) (dist faceDescriptor best))
                              (lit 100)) 1)
      /\ ((forall x, In x faceDescriptor -> isFinite x = true) ->
          (exists s, In s studentDescriptors /\ faceData s = faceDescriptor) ->
          exists i n c, out = PostCheckin i n c "100.0"))
  /\ (forall faceDescriptor rest studentDescriptors i n c confidence,
        startVerify_click (N := RealNumber) (faceDescriptor :: rest)
          studentDescriptors = PostCheckin i n c confidence ->
        exists best d (m : Z),
          In best studentDescriptors /\
          dist faceDescriptor best = Real d /\ 0 <= d < 6 / 10 /\
          confidence
          = (decimal (m / 10) ++ "." ++ pad_left 1 (decimal (m mod 10)))%string
          /\ Rabs (IZR m / 10 - (1 - d) * 100) <= 1 / 20).
Proof.
  split; [|exact confidence_real].
  intros N L fd rest l out. subst out. split.
  - apply confidence_toFixed.
  - apply confidence_identical.
Qed.

End ClientReal.

(* ================================================================= *)
(** * The client on sample vectors *)

Module ClientExamples.
Import JsString Client RealModel ClientSpec RealFacts ClientReal.
Local Open Scope R_scope.

Lemma startVerify_click_single : forall `{N : JsNumber} fd rest s,
  startVerify_click (fd :: rest) [s]
  = if lt (dist fd s) (lit 0.6)
    then PostCheckin (id s) (name s) (course s)
           (toFixed (mul (sub (lit 1) (dist fd s)) (lit 100)) 1)
    else NotRecognized.
Proof.
  intros N fd rest s. unfold startVerify_click, find_best. simpl.
  rewrite best_step_eq. destruct (lt (dist fd s) (lit 0.6)); reflexivity.
Qed.

Lemma dist_example_same : dist [Real 0] (ex_student [Real 0]) = Real 0.
Proof.
  change (euclideanDistance (map Real [0]) (map Real [0]) = Real 0).
  rewrite euclideanDistance_real by reflexivity. f_equal. simpl.
  replace ((0 - 0) * ((0 - 0) * 1) + 0) with 0 by lra. apply R_sqrt.sqrt_0.
Qed.

Lemma dist_example_near :
  dist [Real 0] (ex_student [Real (1 / 10000)]) = Real (1 / 10000).
Proof.
  change (euclideanDistance (map Real [0]) (map Real [1 / 10000])
          = Real (1 / 10000)).
  rewrite euclideanDistance_real by reflexivity. f_equal. simpl.
  replace ((0 - 1 / 10000) * ((0 - 1 / 10000) * 1) + 0)
    with ((1 / 10000) * (1 / 10000)) by lra.
  apply sqrt_square. lra.
Qed.

Lemma dist_example_far : dist [Real 0] (ex_student [Real 1]) = Real 1.
Proof.
  change (euclideanDistance (map Real [0]) (map Real [1]) = Real 1).
  rewrite euclideanDistance_real by reflexivity. f_equal. simpl.
  replace ((0 - 1) * ((0 - 1) * 1) + 0) with (1 * 1) by lra.
  apply sqrt_square. lra.
Qed.

Lemma below_threshold : forall d, d < 6 / 10 -> lt (Real d) (lit 0.6) = true.
Proof. intros d H. apply rlt_true. rewrite Q2R_threshold. exact H. Qed.

Lemma not_below_threshold : forall d,
  6 / 10 <= d -> lt (Real d) (lit 0.6) = false.
Proof. intros d H. apply rlt_false. rewrite Q2R_threshold. lra. Qed.

Lemma matcher_decision_witness :
  dist [Real 0] (ex_student [Real 0])
  = Math_sqrt (sum_squares (lit 0) [Real 0] [Real 0])
  /\ no_match (startVerify_click [[Real 0]] [ex_student [Real 1]])
  /\ (exists confidence,
        startVerify_click [[Real 0]] [ex_student [Real 0]]
        = PostCheckin "S100" "Ann" "CS" confidence)
  /\ euclideanDistance (map Real [0]) (map Real [1])
     = Real (sqrt (sum_sq [0] [1])).
Proof.
  destruct matcher_decision as [Hany Hreal].
  split; [|split; [|split]].
  - apply (proj1 (Hany RealNumber RealNumberLaws
                    [Real 0] [] [ex_student [Real 0]]));
      [left|]; reflexivity.
  - apply (proj1 (proj2 (Hany RealNumber RealNumberLaws
                           [Real 0] [] [ex_student [Real 1]]))).
    intros s [<- | []]. rewrite dist_example_far.
    apply not_below_threshold. lra.
  - destruct (proj2 (proj2 (Hany RealNumber RealNumberLaws
                              [Real 0] [] [ex_student [Real 0]])))
      as [best [Hin [_ [_ [c Hc]]]]].
    + exists (ex_student [Real 0]). split; [left; reflexivity|].
      rewrite dist_example_same. apply below_threshold. lra.
    + destruct Hin as [<- | []]. exists c. exact Hc.
  - apply Hreal. reflexivity.
Defined.

Lemma confidence_post_example :
  startVerify_click [[Real 0]] [ex_student [Real (1 / 10000)]]
  = PostCheckin "S100" "Ann" "CS" "100.0".
Proof.
  rewrite (startVerify_click_single (N := RealNumber)), dist_example_near.
  rewrite below_threshold by lra.
  cbn [lit sub mul toFixed RealNumber rsub rmul id name course ex_student].
  f_equal.
  rewrite (rtoFixed_1 _ 1000); [reflexivity | |];
    rewrite Q2R_1, Q2R_100; lra.
Qed.

Lemma confidence_reported_witness :
  (exists best,
     In best [ex_student [Real (1 / 10000)]] /\
     "100.0" = toFixed (mul (sub (lit 1) (dist [Real 0] best)) (lit 100)) 1)
  /\ (exists i n c,
        startVerify_click [[Real 0]] [ex_student [Real 0]]
        = PostCheckin i n c "100.0")
  /\ (exists d (m : Z),
        dist [Real 0] (ex_student [Real (1 / 10000)]) = Real d /\
        Rabs (IZR m / 10 - (1 - d) * 100) <= 1 / 20).
Proof.
  destruct confidence_reported as [Hany Hreal].
  split; [|split].
  - destruct (proj1 (Hany RealNumber RealNumberLaws [Real 0] []
                       [ex_student [Real (1 / 10000)]])
                "S100" "Ann" "CS" "100.0"%string confidence_post_example)
      as [best [Hin [_ [_ Hc]]]].
    exists best. split; assumption.
  - apply (proj2 (Hany RealNumber RealNumberLaws [Real 0] []
                    [ex_student [Real 0]])).
    + intros x [<- | []]. reflexivity.
    + exists (ex_student [Real 0]). split; [left|]; reflexivity.
  - destruct (Hreal [Real 0] [] [ex_student [Real (1 / 10000)]]
                "S100" "Ann" "CS" "100.0"%string confidence_post_example)
      as [best [d [m [Hin [Hd [_ [_ Hr]]]]]]].
    destruct Hin as [<- | []]. exists d, m. split; assumption.
Defined.

(** A probe at distance 0.0001 of the enrolled vector: (1 - d) * 100 is
    99.99, the confidence sent is "100.0", which the server reads as 100. *)
Lemma confidence_is_rounded :
  startVerify_click [[Real 0]] [ex_student [Real (1 / 10000)]]
  = PostCheckin "S100" "Ann" "CS" "100.0"
  /\ dist [Real 0] (ex_student [Real (1 / 10000)]) = Real (1 / 10000)
  /\ (1 - 1 / 10000) * 100 <> 100
  /\ Server.castNumber (Server.JStr "100.0") = Server.Ok (Some (1000 # 10)%Q)
  /\ Q2R (1000 # 10) = 100.
Proof.
  split; [exact confidence_post_example|].
  split; [exact dist_example_near|].
  split; [lra|]. split; [reflexivity|].
  unfold Q2R. simpl. lra.
Qed.

Lemma matcher_no_length_check_witness :
  dist [Real 0; Real 0] (ex_student [Real 0]) = NaN
  /\ dist [Real 0] (ex_student [Real 0; Real 5])
     = euclideanDistance [Real 0] [Real 0]
  /\ no_match (startVerify_click [[Real 0; Real 0]] [ex_student [Real 0]]).
Proof.
  pose proof (matcher_no_length_check (N := RealNumber)
                [Real 0; Real 0] [] [ex_student [Real 0]])
    as [Hshort [_ Hnone]].
  pose proof (matcher_no_length_check (N := RealNumber)
                [Real 0] [] [ex_student [Real 0; Real 5]])
    as [_ [Hlong _]].
  split; [|split].
  - apply (Hshort (ex_student [Real 0]) (None, lit 0.6)). simpl. lia.
  - apply (Hlong (ex_student [Real 0; Real 5])). simpl. lia.
  - apply Hnone. intros s [<- | []]. simpl. lia.
Defined.

(** A probe of one component against an enrolled vector of two: no
    error, the student is matched on the first component. *)
Lemma matcher_accepts_other_length :
  List.length [Real 0] <> List.length (faceData (ex_student [Real 0; Real 5]))
  /\ startVerify_click [[Real 0]] [ex_student [Real 0; Real 5]]
     = PostCheckin "S100" "Ann" "CS" "100.0".
Proof.
  split; [simpl; lia|].
  assert (Hd : dist [Real 0] (ex_student [Real 0; Real 5]) = Real 0).
  { unfold dist. rewrite euclideanDistance_firstn by (simpl; lia).
    exact dist_example_same. }
  rewrite (startVerify_click_single (N := RealNumber)), Hd.
  rewrite below_threshold by lra.
  cbn [lit sub mul toFixed RealNumber rsub rmul id name course ex_student].
  f_equal.
  rewrite (rtoFixed_1 _ 1000); [reflexivity | |];
    rewrite Q2R_1, Q2R_100; lra.
Qed.

Lemma aggregator_mean_witness :
  List.length (avgDescriptor [[Real 1]; [Real 2]; [Real 3]]) = 1%nat
  /\ nth_error (avgDescriptor (map (map Real) [[1]; [2]; [3]])) 0
     = Some (Real ((1 + (2 + (3 + 0))) / INR 3)).
Proof.
  destruct aggregator_mean as [Hany Hreal].
  split.
  - apply (Hany RealNumber [[Real 1]; [Real 2]; [Real 3]] 1%nat).
    + simpl. lia.
    + intros s [<- | [<- | [<- | []]]]; reflexivity.
  - refine (Hreal [[1]; [2]; [3]] 1%nat _ _ 0%nat _).
    + simpl. lia.
    + intros s [<- | [<- | [<- | []]]]; reflexivity.
    + lia.
Defined.

Lemma aggregator_guard_witness :
  registerStudent_click "s100" "Ann" "CS" [[Real 1]; [Real 2]]
  = MissingFaceSamples
  /\ registerStudent_click "s100" "Ann" "CS" [[Real 1]; [Real 2]; [Real 3]]
     = PostRegister "S100" "Ann" "CS"
         (avgDescriptor [[Real 1]; [Real 2]; [Real 3]]).
Proof.
  split.
  - destruct (proj1 (aggregator_guard (N := RealNumber) "s100" "Ann" "CS"
                       [[Real 1]; [Real 2]])) as [H | H].
    + simpl. lia.
    + discriminate H.
    + exact H.
  - destruct (proj2 (aggregator_guard (N := RealNumber) "s100" "Ann" "CS"
                       [[Real 1]; [Real 2]; [Real 3]])) as [H | [H _]].
    + simpl. lia.
    + discriminate H.
    + exact H.
Defined.

(** Three samples of lengths 128, 128 and 127: the registration is sent,
    with a descriptor of 128 components whose last one is NaN. *)
Lemma aggregator_sends_mismatched :
  map (@List.length rnum) ex_samples_mismatched = [128; 128; 127]%nat /\
  registerStudent_click "s100" "Ann" "CS" ex_samples_mismatched
  = PostRegister "S100" "Ann" "CS" (avgDescriptor ex_samples_mismatched) /\
  List.length (avgDescriptor ex_samples_mismatched) = 128%nat /\
  nth_error (avgDescriptor ex_samples_mismatched) 127 = Some RNaN.
Proof.
  split; [reflexivity|]. split; [reflexivity|].
  split; [rewrite avgDescriptor_length; reflexivity|].
  unfold avgDescriptor, Array_map.
  erewrite map_from_nth_error by reflexivity. reflexivity.
Qed.

End ClientExamples.

(* ================================================================= *)
(** * Properties of the other routes *)

Module ServerRoutesSpec.
Import JsString Server ServerRoutes ServerSpec.

(** *** Keys in upper case and trimmed *)

Lemma upper_char_idem : forall c, upper_char (upper_char c) = upper_char c.
Proof.
  intros [b0 b1 b2 b3 b4 b5 b6 b7].
  destruct b0, b1, b2, b3, b4, b5, b6, b7; reflexivity.
Qed.

Lemma is_space_upper_char : forall c, is_space (upper_char c) = is_space c.
Proof.
  intros [b0 b1 b2 b3 b4 b5 b6 b7].
  destruct b0, b1, b2, b3, b4, b5, b6, b7; reflexivity.
Qed.

Lemma toUpperCase_idem : forall s, toUpperCase (toUpperCase s) = toUpperCase s.
Proof.
  induction s as [|c s IH]; simpl; [reflexivity|].
  rewrite upper_char_idem, IH. reflexivity.
Qed.

Lemma trimStart_toUpperCase : forall s,
  trimStart (toUpperCase s) = toUpperCase (trimStart s).
Proof.
  induction s as [|c s IH]; simpl; [reflexivity|].
  rewrite is_space_upper_char. destruct (is_space c); [exact IH | reflexivity].
Qed.

Lemma trimEnd_toUpperCase : forall s,
  trimEnd (toUpperCase s) = toUpperCase (trimEnd s).
Proof.
  induction s as [|c s IH]; simpl; [reflexivity|].
  rewrite IH, is_space_upper_char.
  destruct (trimEnd s); simpl; [destruct (is_space c)|]; reflexivity.
Qed.

Lemma trim_toUpperCase : forall s, trim (toUpperCase s) = toUpperCase (trim s).
Proof.
  intros s. unfold trim. rewrite trimStart_toUpperCase. apply trimEnd_toUpperCase.
Qed.

Lemma trimStart_clean : forall s, starts_clean (trimStart s).
Proof.
  induction s as [|c s IH]; simpl; [exact I|].
  destruct (is_space c) eqn:E; [exact IH | exact E].
Qed.

Lemma trimStart_of_clean : forall s, starts_clean s -> trimStart s = s.
Proof. intros [|c s] H; simpl in *; [reflexivity | rewrite H; reflexivity]. Qed.

Lemma trimEnd_clean : forall s, starts_clean s -> starts_clean (trimEnd s).
Proof.
  intros [|c s] H; simpl in *; [exact I|].
  destruct (trimEnd s); [rewrite H|]; exact H.
Qed.

Lemma trimEnd_idem : forall s, trimEnd (trimEnd s) = trimEnd s.
Proof.
  induction s as [|c s IH]; simpl; [reflexivity|].
  destruct (trimEnd s) as [|c' s'] eqn:E.
  - destruct (is_space c) eqn:Ec; simpl; [reflexivity | rewrite Ec; reflexivity].
  - simpl. simpl in IH. rewrite IH. reflexivity.
Qed.

Lemma trim_idem : forall s, trim (trim s) = trim s.
Proof.
  intros s. unfold trim.
  rewrite (trimStart_of_clean (trimEnd (trimStart s))).
  - apply trimEnd_idem.
  - apply trimEnd_clean, trimStart_clean.
Qed.

Lemma studentId_set_idem : forall s,
  studentId_set (studentId_set s) = studentId_set s.
Proof.
  intros s. unfold studentId_set.
  rewrite <- (trim_toUpperCase (toUpperCase s)), toUpperCase_idem.
  apply trim_idem.
Qed.

Lemma studentId_set_toUpperCase : forall s,
  studentId_set (toUpperCase s) = studentId_set s.
Proof. intros s. unfold studentId_set. rewrite toUpperCase_idem. reflexivity. Qed.


(** *** Registration, exactly *)

Lemma castNumberArray_length : forall l q,
  castNumberArray l = Ok q -> List.length q = List.length l.
Proof.
  induction l as [|v l IH]; intros q H; simpl in H.
  - inversion H. reflexivity.
  - destruct (castNumber v) as [x|]; simpl in H; [|discriminate].
    destruct (castNumberArray l) as [qs|]; simpl in H; [|discriminate].
    inversion H. simpl. rewrite (IH qs eq_refl). reflexivity.
Qed.

Lemma is_empty_false : forall s, s <> EmptyString <-> is_empty s = false.
Proof. destruct s; simpl; split; congruence. Qed.

Lemma trim_empty_is_empty : forall s, trim s <> EmptyString -> s <> EmptyString.
Proof. intros s H ->. apply H. reflexivity. Qed.

Lemma Student_findOne_None : forall k coll,
  Student_findOne k coll = None <->
  ~ In (studentId_set k) (map Student.studentId coll).
Proof.
  intros k coll. unfold Student_findOne. split.
  - intros H Hin. apply in_map_iff in Hin. destruct Hin as [e [He Hin]].
    apply (find_none _ _ H) in Hin. rewrite He, String.eqb_refl in Hin.
    discriminate.
  - intros H. destruct (find _ coll) as [e|] eqn:E; [|reflexivity].
    apply find_some in E. destruct E as [Hin He]. apply String.eqb_eq in He.
    exfalso. apply H. rewrite <- He. apply in_map. exact Hin.
Qed.

(** With no document of the key, the unique index lets the insert through. *)
Lemma unique_index_passes : forall coll s,
  ~ In (Student.studentId s) (map Student.studentId coll) ->
  violates_unique student_key studentSchema_indexes coll s = false.
Proof.
  intros coll s H. unfold violates_unique, studentSchema_indexes.
  cbn [existsb unique keys andb map]. rewrite orb_false_r.
  apply not_true_is_false. intros E. apply existsb_exists in E.
  destruct E as [e [Hin He]]. unfold list_string_eqb in He.
  destruct (list_eq_dec string_dec _ _) as [Eq|]; [|discriminate].
  inversion Eq as [Hid].
  change (Student.studentId e = Student.studentId s) in Hid.
  apply H. rewrite <- Hid. apply in_map. exact Hin.
Qed.

Lemma register_succeeds : forall now b d s n c l q,
  studentId b = JStr s -> name b = JStr n -> course b = JStr c ->
  faceDescriptor b = JArr l -> List.length l = 128 ->
  castNumberArray l = Ok q ->
  studentId_set s <> EmptyString -> trim n <> EmptyString ->
  trim c <> EmptyString ->
  ~ In (studentId_set s) (map Student.studentId (students d)) ->
  register now b d
  = (respond 201 true "Student registered successfully"
       (StudentData (studentId_set s) (trim n) (trim c) now),
     {| students := students d ++ [registered now s n c q];
        attendance := attendance d |}).
Proof.
  intros now b d s n c l q Hs Hn Hc Hl Hlen Hq Hi Hnm Hcr Hnew.
  unfold register, register_try. rewrite Hs, Hn, Hc, Hl. simpl.
  assert (Hs0 : is_empty s = false).
  { apply is_empty_false. intros ->. apply Hi. reflexivity. }
  rewrite Hs0, (proj1 (is_empty_false n) (trim_empty_is_empty n Hnm)),
    (proj1 (is_empty_false c) (trim_empty_is_empty c Hcr)), Hlen. simpl.
  rewrite <- studentId_set_toUpperCase in Hnew.
  rewrite (proj2 (Student_findOne_None _ _) Hnew).
  unfold Student_new. rewrite Hq. cbn [bind]. unfold Student_save.
  unfold Student_validate, required_string.
  cbn [Student.studentId Student.name Student.course].
  rewrite studentId_set_toUpperCase, !trim_idem.
  rewrite (proj1 (is_empty_false _) Hi), (proj1 (is_empty_false _) Hnm),
    (proj1 (is_empty_false _) Hcr). simpl negb. cbv iota.
  rewrite unique_index_passes.
  - reflexivity.
  - cbn [Student.studentId].
    rewrite studentId_set_toUpperCase in Hnew. exact Hnew.
Qed.

Lemma register_201_inv : forall now b d,
  status (fst (register now b d)) = 201 ->
  exists s n c l q,
    studentId b = JStr s /\ name b = JStr n /\ course b = JStr c /\
    faceDescriptor b = JArr l /\ List.length l = 128 /\
    castNumberArray l = Ok q /\
    studentId_set s <> EmptyString /\ trim n <> EmptyString /\
    trim c <> EmptyString /\
    ~ In (studentId_set s) (map Student.studentId (students d)).
Proof.
  intros now b d. unfold register, register_try.
  destruct (negb (truthy (studentId b)) || _ || _ || _) eqn:Hmiss;
    [discriminate|].
  destruct (negb (Array_isArray (faceDescriptor b)) || _) eqn:Hfd;
    [discriminate|].
  destruct (studentId b) as [| |?|?|s|?|?] eqn:Hs;
    cbn [call_toUpperCase bind]; try discriminate.
  destruct (Student_findOne (toUpperCase s) (students d)) eqn:Hfind;
    [discriminate|].
  destruct (name b) as [| |?|?|n|?|?] eqn:Hn; cbn [call_trim bind];
    try discriminate.
  destruct (course b) as [| |?|?|c|?|?] eqn:Hc; cbn [call_trim bind];
    try discriminate.
  destruct (faceDescriptor b) as [| |?|?|?|l|?] eqn:Hl; try discriminate.
  unfold Student_new.
  destruct (castNumberArray l) as [q|] eqn:Hq; cbn [bind]; [|discriminate].
  unfold Student_save.
  destruct (negb (Student_validate _)) eqn:Hv; [discriminate|].
  destruct (violates_unique student_key _ _ _); [discriminate|].
  cbn [bind fst snd]. intros _.
  apply negb_false_iff in Hv. unfold Student_validate, required_string in Hv.
  cbn [Student.studentId Student.name Student.course] in Hv.
  rewrite !andb_true_iff, !negb_true_iff in Hv. destruct Hv as [[Hi Hnm] Hcr].
  rewrite studentId_set_toUpperCase in Hi. rewrite trim_idem in Hnm, Hcr.
  apply Student_findOne_None in Hfind.
  rewrite studentId_set_toUpperCase in Hfind.
  simpl in Hfd. apply negb_false_iff, Nat.eqb_eq in Hfd.
  exists s, n, c, l, q.
  repeat split; auto; try (apply is_empty_false; assumption).
Qed.



(** *** What the student collection keeps *)

Lemma students_ok_nil : students_ok [].
Proof.
  constructor; simpl; [constructor | intros s [] | intros s []].
Qed.

Lemma register_unchanged : forall now b d,
  status (fst (register now b d)) <> 201 -> snd (register now b d) = d.
Proof.
  intros now b d. unfold register, register_try.
  destruct (negb (truthy (studentId b)) || _ || _ || _); [reflexivity|].
  destruct (negb (Array_isArray (faceDescriptor b)) || _); [reflexivity|].
  destruct (call_toUpperCase (studentId b)) as [k|]; cbn [bind];
    [|reflexivity].
  destruct (Student_findOne k (students d)); [reflexivity|].
  destruct (call_trim (name b)); cbn [bind]; [|reflexivity].
  destruct (call_trim (course b)); cbn [bind]; [|reflexivity].
  destruct (Student_new _ _ _ _ _); cbn [bind]; [|reflexivity].
  destruct (Student_save _ _); cbn [bind]; [|reflexivity].
  simpl. congruence.
Qed.

Lemma students_ok_register : forall now b d,
  students_ok (students d) ->
  students_ok (students (snd (register now b d))).
Proof.
  intros now b d Hok.
  destruct (Nat.eq_dec (status (fst (register now b d))) 201) as [E|E].
  - destruct (register_201_inv now b d E)
      as [s [n [c [l [q [Hs [Hn [Hc [Hl [Hlen [Hq [Hi [Hnm [Hcr Hnew]]]]]]]]]]]]]].
    rewrite (register_succeeds now b d s n c l q) by assumption.
    cbn [snd students]. destruct Hok as [Hd Hk Hf]. constructor.
    + rewrite map_app. simpl.
      apply NoDup_app; [exact Hd | repeat constructor; intros [] | ].
      intros x Hx [<- | []]. exact (Hnew Hx).
    + intros x Hx. apply in_app_or in Hx. destruct Hx as [Hx | [<- | []]];
        [apply Hk; exact Hx|]. simpl. split; [exact Hi|].
      apply studentId_set_idem.
    + intros x Hx. apply in_app_or in Hx. destruct Hx as [Hx | [<- | []]];
        [apply Hf; exact Hx|]. simpl.
      rewrite (castNumberArray_length l q Hq). exact Hlen.
  - rewrite (register_unchanged now b d E). exact Hok.
Qed.


(** An in-place change of the first document with a key keeps the keys
    and, where the change keeps the descriptor length, the descriptors. *)
Lemma Student_updateOne_ids : forall k u coll,
  map Student.studentId (snd (Student_updateOne k u coll))
  = map Student.studentId coll.
Proof.
  intros k u coll. induction coll as [|s r IH]; simpl; [reflexivity|].
  destruct (Student.studentId s =? studentId_set k); simpl; [reflexivity|].
  destruct (Student_updateOne k u r) as [o r']; simpl in *.
  rewrite IH. reflexivity.
Qed.

Lemma Student_updateOne_In : forall k u coll x,
  In x (snd (Student_updateOne k u coll)) ->
  In x coll \/ exists s, In s coll /\ x = apply_update u s.
Proof.
  intros k u coll. induction coll as [|s r IH]; intros x Hx; simpl in *;
    [contradiction|].
  destruct (Student.studentId s =? studentId_set k); simpl in Hx.
  - destruct Hx as [<- | Hx]; [right; exists s; auto | auto].
  - destruct (Student_updateOne k u r) as [o r']; simpl in *.
    destruct Hx as [<- | Hx]; [auto|].
    destruct (IH x Hx) as [H | [s' [Hs' ->]]]; [auto|].
    right. exists s'. auto.
Qed.

Lemma Student_deactivateOne_In : forall k coll x,
  In x (snd (Student_deactivateOne k coll)) ->
  In x coll \/ exists s, In s coll /\ x = deactivate s.
Proof.
  intros k coll. induction coll as [|s r IH]; intros x Hx; simpl in *;
    [contradiction|].
  destruct (Student.studentId s =? studentId_set k); simpl in Hx.
  - destruct Hx as [<- | Hx]; [right; exists s; auto | auto].
  - destruct (Student_deactivateOne k r) as [o r']; simpl in *.
    destruct Hx as [<- | Hx]; [auto|].
    destruct (IH x Hx) as [H | [s' [Hs' ->]]]; [auto|].
    right. exists s'. auto.
Qed.

Lemma update_student_spec : forall param b d,
  update_outcome param b d (update_student param b d).
Proof.
  intros param b d. unfold update_student, update_student_try.
  destruct (update_string (name b)) as [nm|] eqn:Hn; cbn [bind];
    [|apply uo_reject; auto].
  destruct (update_string (course b)) as [crs|] eqn:Hc; cbn [bind];
    [|apply uo_reject; auto].
  destruct (truthy (faceDescriptor b) && _) eqn:Hbad;
    [apply uo_reject; auto|].
  destruct (if truthy (faceDescriptor b) then _ else _) as [fd|] eqn:Hfd;
    cbn [bind]; [|apply uo_reject; auto].
  destruct (Student_updateOne _ _ _) as [[s|] coll] eqn:Hu;
    [|apply uo_reject; auto].
  eapply uo_updated with (u := {| u_name := nm; u_course := crs;
                                  u_faceDescriptor := fd |}); eauto.
  simpl. intros q ->.
  destruct (truthy (faceDescriptor b)); [|discriminate].
  destruct (faceDescriptor b) as [| |?|?|?|l|?]; try discriminate.
  simpl in Hbad. apply negb_false_iff, Nat.eqb_eq in Hbad.
  destruct (castNumberArray l) as [q'|] eqn:Hq; cbn [bind] in Hfd;
    [|discriminate].
  inversion Hfd; subst. rewrite (castNumberArray_length l q Hq). exact Hbad.
Qed.

Lemma update_ids : forall p b d,
  map Student.studentId (students (snd (update_student p b d)))
  = map Student.studentId (students d).
Proof.
  intros p b d.
  destruct (update_student_spec p b d) as [| u s coll Hn Hc Hq Hu];
    [reflexivity|].
  cbn [snd students].
  replace coll with (snd (Student_updateOne (toUpperCase p) u (students d)))
    by (rewrite Hu; reflexivity).
  apply Student_updateOne_ids.
Qed.

Lemma students_ok_ids : forall coll coll',
  map Student.studentId coll' = map Student.studentId coll ->
  (forall x, In x coll' ->
     exists s, In s coll /\ Student.studentId x = Student.studentId s /\
               (List.length (Student.faceDescriptor x) = 128)) ->
  students_ok coll -> students_ok coll'.
Proof.
  intros coll coll' Hids Hin [Hd Hk Hf]. constructor.
  - rewrite Hids. exact Hd.
  - intros x Hx. destruct (Hin x Hx) as [s [Hs [E _]]]. rewrite E.
    apply Hk. exact Hs.
  - intros x Hx. destruct (Hin x Hx) as [s [Hs [_ E]]]. exact E.
Qed.

Lemma students_ok_update : forall param b d,
  students_ok (students d) ->
  students_ok (students (snd (update_student param b d))).
Proof.
  intros param b d Hok.
  destruct (update_student_spec param b d) as [| u s coll Hn Hc Hq Hu];
    [exact Hok|].
  cbn [snd students].
  assert (E : coll = snd (Student_updateOne (toUpperCase param) u (students d)))
    by (rewrite Hu; reflexivity).
  apply (students_ok_ids (students d)); [| |exact Hok].
  - rewrite E. apply Student_updateOne_ids.
  - intros x Hx. rewrite E in Hx.
    destruct (Student_updateOne_In _ _ _ _ Hx) as [H | [s' [Hs' ->]]].
    + exists x. split; [exact H|]. split; [reflexivity|].
      apply (ok_descriptors _ Hok). exact H.
    + exists s'. split; [exact Hs'|]. split; [reflexivity|].
      unfold apply_update. simpl.
      destruct (u_faceDescriptor u) as [q|] eqn:Eq;
        [apply Hq; reflexivity | apply (ok_descriptors _ Hok); exact Hs'].
Qed.

Lemma students_ok_delete : forall param d,
  students_ok (students d) ->
  students_ok (students (snd (delete_student param d))).
Proof.
  intros param d Hok. unfold delete_student.
  destruct (Student_deactivateOne (toUpperCase param) (students d))
    as [[s|] coll] eqn:Hu; [|exact Hok].
  cbn [snd students].
  assert (E : coll = snd (Student_deactivateOne (toUpperCase param) (students d)))
    by (rewrite Hu; reflexivity).
  apply (students_ok_ids (students d)); [| |exact Hok].
  - rewrite E. apply Student_deactivateOne_ids.
  - intros x Hx. rewrite E in Hx.
    destruct (Student_deactivateOne_In _ _ _ Hx) as [H | [s' [Hs' ->]]].
    + exists x. split; [exact H|]. split; [reflexivity|].
      apply (ok_descriptors _ Hok). exact H.
    + exists s'. split; [exact Hs'|]. split; [reflexivity|].
      simpl. apply (ok_descriptors _ Hok). exact Hs'.
Qed.

Lemma checkin_students : forall today now b d,
  students (snd (checkin today now b d)) = students d.
Proof.
  intros. destruct (checkin_spec today now b d); reflexivity.
Qed.

Lemma register_attendance : forall now b d,
  attendance (snd (register now b d)) = attendance d.
Proof.
  intros now b d. unfold register, register_try.
  destruct (negb (truthy (studentId b)) || _ || _ || _); [reflexivity|].
  destruct (negb (Array_isArray (faceDescriptor b)) || _); [reflexivity|].
  destruct (call_toUpperCase (studentId b)) as [k|]; cbn [bind];
    [|reflexivity].
  destruct (Student_findOne k (students d)); [reflexivity|].
  destruct (call_trim (name b)); cbn [bind]; [|reflexivity].
  destruct (call_trim (course b)); cbn [bind]; [|reflexivity].
  destruct (Student_new _ _ _ _ _); cbn [bind]; [|reflexivity].
  destruct (Student_save _ _); cbn [bind]; reflexivity.
Qed.

Lemma update_attendance : forall param b d,
  attendance (snd (update_student param b d)) = attendance d.
Proof.
  intros. destruct (update_student_spec param b d); reflexivity.
Qed.

Lemma delete_attendance : forall param d,
  attendance (snd (delete_student param d)) = attendance d.
Proof.
  intros param d. unfold delete_student.
  destruct (Student_deactivateOne _ _) as [[s|] coll]; reflexivity.
Qed.

(** X2.  Whatever write requests are served one after the other, a store
    whose student keys are pairwise distinct, non-empty and in the form
    the schema's setters give (upper case, trimmed), whose descriptors
    have 128 components and whose ledger has at most one record per
    (identity, date) stays so; the empty store is one. *)
Theorem store_invariant : forall reqs d,
  students_ok (students d) -> at_most_one (attendance d) ->
  students_ok (students (serve_all reqs d)) /\
  at_most_one (attendance (serve_all reqs d)).
Proof.
  induction reqs as [|r reqs IH]; intros d Hs Ha; [split; assumption|].
  cbn [serve_all fold_left]. apply IH.
  - destruct r as [now b | param b | param | today now b |]; cbn [serve].
    + apply students_ok_register. exact Hs.
    + apply students_ok_update. exact Hs.
    + apply students_ok_delete. exact Hs.
    + rewrite checkin_students. exact Hs.
    + exact students_ok_nil.
  - destruct r as [now b | param b | param | today now b |]; cbn [serve].
    + rewrite register_attendance. exact Ha.
    + rewrite update_attendance. exact Ha.
    + rewrite delete_attendance. exact Ha.
    + apply checkin_at_most_one. exact Ha.
    + exact at_most_one_nil.
Qed.

Lemma store_invariant_witness :
  students_ok (students (serve_all
    [Register 1 (ex_register "s100" ex_descriptor);
     Checkin "3/14/2025" 7 (ex_checkin "S100" "Ann" "CS" (JStr "87.7"));
     Delete "S100";
     Register 2 (ex_register "S100 " ex_descriptor)] ex_db0)) /\
  at_most_one (attendance (serve_all
    [Register 1 (ex_register "s100" ex_descriptor);
     Checkin "3/14/2025" 7 (ex_checkin "S100" "Ann" "CS" (JStr "87.7"));
     Delete "S100";
     Register 2 (ex_register "S100 " ex_descriptor)] ex_db0)).
Proof.
  apply store_invariant; [exact students_ok_nil | exact at_most_one_nil].
Defined.


(** *** Sorting *)

Lemma insert_by_perm : forall {A} (leb : A -> A -> bool) x l,
  Permutation (x :: l) (insert_by leb x l).
Proof.
  intros A leb x l. induction l as [|y r IH]; simpl; [reflexivity|].
  destruct (leb x y); [reflexivity|].
  rewrite perm_swap. apply perm_skip. exact IH.
Qed.

Lemma sort_by_perm : forall {A} (leb : A -> A -> bool) l,
  Permutation l (sort_by leb l).
Proof.
  intros A leb l. induction l as [|x l IH]; simpl; [reflexivity|].
  rewrite <- insert_by_perm. apply perm_skip. exact IH.
Qed.

Lemma insert_by_sorted : forall {A} (leb : A -> A -> bool),
  (forall a b, leb a b = true \/ leb b a = true) ->
  forall x l,
    Sorted (fun a b => leb a b = true) l ->
    Sorted (fun a b => leb a b = true) (insert_by leb x l).
Proof.
  intros A leb Htot x l Hs. induction Hs as [|y r Hr IH Hhd]; simpl.
  - repeat constructor.
  - destruct (leb x y) eqn:E.
    + constructor; [constructor; assumption | constructor; exact E].
    + constructor; [exact IH|].
      destruct r as [|z r']; simpl.
      * constructor. destruct (Htot x y); congruence.
      * destruct (leb x z); constructor.
        -- destruct (Htot x y); congruence.
        -- inversion Hhd; assumption.
Qed.

Lemma sort_by_sorted : forall {A} (leb : A -> A -> bool),
  (forall a b, leb a b = true \/ leb b a = true) ->
  forall l, Sorted (fun a b => leb a b = true) (sort_by leb l).
Proof.
  intros A leb Htot l. induction l as [|x l IH]; simpl; [constructor|].
  apply insert_by_sorted; assumption.
Qed.

Lemma by_name_total : forall a b, by_name a b = true \/ by_name b a = true.
Proof. intros a b. apply String.leb_total. Qed.

Lemma by_time_desc_total : forall a b,
  by_time_desc a b = true \/ by_time_desc b a = true.
Proof. intros a b. unfold by_time_desc. lia. Qed.

Lemma Sorted_map : forall {A B} (f : A -> B) (R : B -> B -> Prop) l,
  Sorted (fun a b => R (f a) (f b)) l -> Sorted R (map f l).
Proof.
  intros A B f R l H. induction H as [|x l Hl IH Hhd]; simpl; constructor.
  - exact IH.
  - destruct Hhd; simpl; constructor. assumption.
Qed.

(** *** Listing the students *)

Lemma active_students_In : forall d s,
  In s (active_students d) <-> In s (students d) /\ Student.isActive s = true.
Proof.
  intros d s. unfold active_students. rewrite <- filter_In. split; intros H.
  - apply (Permutation_in _ (Permutation_sym (sort_by_perm by_name _))). exact H.
  - apply (Permutation_in _ (sort_by_perm by_name _)). exact H.
Qed.

(** X3.  GET /api/students answers with the views of exactly the active
    students, each once per stored document, in ascending order of name,
    and [count] is their number; GET /api/students/descriptors lists the
    same students in the same order with their stored descriptors. *)
Theorem students_listed : forall d,
  exists found,
    get_students d = StudentList (List.length found) (map view found) /\
    get_descriptors d
    = DescriptorList (List.length found) (map descriptor_of found) /\
    Permutation found (filter Student.isActive (students d)) /\
    Sorted (fun a b => String.leb a b = true) (map Student.name found) /\
    (forall s, In s found <->
               In s (students d) /\ Student.isActive s = true).
Proof.
  intros d. exists (active_students d).
  split; [reflexivity|]. split; [reflexivity|]. split; [|split].
  - symmetry. apply sort_by_perm.
  - apply Sorted_map. apply (sort_by_sorted by_name by_name_total).
  - apply active_students_In.
Qed.


(** *** Looking a student up *)

Lemma Student_findOne_app : forall k l1 l2,
  Student_findOne k (l1 ++ l2)
  = match Student_findOne k l1 with
    | Some s => Some s
    | None => Student_findOne k l2
    end.
Proof.
  intros k l1 l2. unfold Student_findOne.
  induction l1 as [|a l IH]; simpl; [reflexivity|].
  destruct (Student.studentId a =? studentId_set k); [reflexivity | exact IH].
Qed.

(** Among distinct keys the document of a key is the one [findOne] finds. *)
Lemma Student_findOne_distinct : forall k coll e,
  NoDup (map Student.studentId coll) ->
  In e coll -> Student.studentId e = studentId_set k ->
  Student_findOne k coll = Some e.
Proof.
  intros k coll e Hd Hin He. unfold Student_findOne.
  induction coll as [|x r IH]; simpl in *; [contradiction|].
  inversion Hd as [|? ? Hx Hr]; subst.
  destruct Hin as [-> | Hin].
  - rewrite He, String.eqb_refl. reflexivity.
  - destruct (Student.studentId x =? studentId_set k) eqn:E.
    + apply String.eqb_eq in E. exfalso. apply Hx. rewrite E, <- He.
      apply in_map. exact Hin.
    + apply IH; assumption.
Qed.

(** X4.  A registration answered 201 can be read back: GET
    /api/students/:studentId with the key in any case and with blanks
    around it, which found nothing before, now answers with the stored
    student (key in upper case and trimmed, name and course trimmed,
    active), and the student is in the list of GET /api/students. *)
Theorem register_then_get : forall now b d s n c p,
  status (fst (register now b d)) = 201 ->
  studentId b = JStr s -> name b = JStr n -> course b = JStr c ->
  studentId_set p = studentId_set s ->
  let d' := snd (register now b d) in
  get_student p d = Failure 404 "Student not found" None /\
  get_student p d'
  = StudentFound {| v_studentId := studentId_set s; v_name := trim n;
                    v_course := trim c; v_registeredAt := now;
                    v_isActive := true |} /\
  exists doc, In doc (active_students d') /\
              Student.studentId doc = studentId_set s.
Proof.
  intros now b d s n c p H201 Hs Hn Hc Hp d'. subst d'.
  destruct (register_201_inv now b d H201)
    as [s' [n' [c' [l [q [Hs' [Hn' [Hc' [Hl [Hlen [Hq [Hi [Hnm [Hcr Hnew]]]]]]]]]]]]]].
  rewrite Hs in Hs'. rewrite Hn in Hn'. rewrite Hc in Hc'.
  inversion Hs'; inversion Hn'; inversion Hc'; subst s' n' c'.
  rewrite (register_succeeds now b d s n c l q) by assumption.
  cbn [snd]. unfold get_student.
  assert (Hnone : Student_findOne (toUpperCase p) (students d) = None).
  { apply Student_findOne_None.
    rewrite studentId_set_toUpperCase, Hp. exact Hnew. }
  rewrite Hnone. split; [reflexivity|]. split.
  - cbn [students]. rewrite Student_findOne_app, Hnone.
    unfold Student_findOne. simpl.
    rewrite studentId_set_toUpperCase, Hp, String.eqb_refl. reflexivity.
  - exists (registered now s n c q). split; [|reflexivity].
    apply active_students_In. cbn [students]. split; [|reflexivity].
    apply in_or_app. right. left. reflexivity.
Qed.

Lemma register_then_get_witness :
  get_student " S100" (snd (register 1 (ex_register "s100" ex_descriptor) ex_db0))
  = StudentFound {| v_studentId := "S100"; v_name := "Ann"; v_course := "CS";
                    v_registeredAt := 1; v_isActive := true |}.
Proof.
  exact (proj1 (proj2 (register_then_get 1 (ex_register "s100" ex_descriptor)
                         ex_db0 "s100" "Ann" "CS" " S100"
                         eq_refl eq_refl eq_refl eq_refl eq_refl))).
Defined.

(** *** Soft delete *)

Lemma Student_deactivateOne_app : forall k l1 e l2,
  (forall x, In x l1 -> Student.studentId x <> studentId_set k) ->
  Student.studentId e = studentId_set k ->
  Student_deactivateOne k (l1 ++ e :: l2)
  = (Some (deactivate e), l1 ++ deactivate e :: l2).
Proof.
  intros k l1 e l2 Hl1 He. induction l1 as [|x l IH]; simpl.
  - rewrite He, String.eqb_refl. reflexivity.
  - destruct (Student.studentId x =? studentId_set k) eqn:E.
    + apply String.eqb_eq in E. exfalso. apply (Hl1 x); [left; reflexivity|].
      exact E.
    + rewrite IH; [reflexivity|]. intros y Hy. apply Hl1. right. exact Hy.
Qed.

Lemma Student_deactivateOne_none : forall k coll,
  (forall x, In x coll -> Student.studentId x <> studentId_set k) ->
  Student_deactivateOne k coll = (None, coll).
Proof.
  intros k coll H. induction coll as [|x l IH]; simpl; [reflexivity|].
  destruct (Student.studentId x =? studentId_set k) eqn:E.
  - apply String.eqb_eq in E. exfalso. apply (H x); [left; reflexivity|].
    exact E.
  - rewrite IH; [reflexivity|]. intros y Hy. apply H. right. exact Hy.
Qed.

(** Where the keys are distinct, a stored document splits the collection
    into the documents before it and after it, none of them with its key. *)
Lemma split_at_key : forall (coll : list Student.doc) e,
  NoDup (map Student.studentId coll) -> In e coll ->
  exists l1 l2,
    coll = l1 ++ e :: l2 /\
    forall x, In x (l1 ++ l2) -> Student.studentId x <> Student.studentId e.
Proof.
  intros coll e Hd Hin. destruct (in_split _ _ Hin) as [l1 [l2 ->]].
  exists l1, l2. split; [reflexivity|].
  rewrite map_app in Hd. simpl in Hd. apply NoDup_remove_2 in Hd.
  intros x Hx E. apply Hd. rewrite <- E, <- map_app. apply in_map. exact Hx.
Qed.

(** X5.  In a store with distinct keys, DELETE /api/students/:studentId
    answers 404 and changes nothing when no student has the key;
    otherwise it answers 200 and only clears [isActive] of that student:
    the student leaves the list of GET /api/students, GET by its key still
    answers with it (inactive), no document is removed, and deleting it
    again answers 200 again and changes nothing more. *)
Theorem soft_delete : forall p d,
  students_ok (students d) ->
  ((forall x, In x (students d) ->
      Student.studentId x <> studentId_set p) ->
   delete_student p d = (respond 404 false "Student not found" NoData, d))
  /\ (forall e,
        In e (students d) -> Student.studentId e = studentId_set p ->
        exists l1 l2,
          students d = l1 ++ e :: l2 /\
          let d' := {| students := l1 ++ deactivate e :: l2;
                       attendance := attendance d |} in
          delete_student p d
          = (respond 200 true "Student deleted successfully" NoData, d') /\
          (forall x, In x (active_students d') ->
             Student.studentId x <> Student.studentId e) /\
          get_student p d' = StudentFound (view (deactivate e)) /\
          delete_student p d'
          = (respond 200 true "Student deleted successfully" NoData, d')).
Proof.
  intros p d Hok. split.
  - intros Hnone. unfold delete_student.
    rewrite Student_deactivateOne_none; [reflexivity|].
    intros x Hx. rewrite studentId_set_toUpperCase. apply Hnone. exact Hx.
  - intros e Hin He.
    destruct (split_at_key _ e (ok_distinct _ Hok) Hin) as [l1 [l2 [Hsplit Hother]]].
    exists l1, l2. split; [exact Hsplit|]. cbn zeta.
    assert (Hk : Student.studentId e = studentId_set (toUpperCase p))
      by (rewrite studentId_set_toUpperCase; exact He).
    assert (Hl1 : forall x, In x l1 ->
                    Student.studentId x <> studentId_set (toUpperCase p)).
    { intros x Hx. rewrite <- Hk. apply Hother. apply in_or_app. auto. }
    assert (Hdel : forall e',
               Student.studentId e' = Student.studentId e ->
               Student_deactivateOne (toUpperCase p) (l1 ++ e' :: l2)
               = (Some (deactivate e'), l1 ++ deactivate e' :: l2)).
    { intros e' E. apply Student_deactivateOne_app; [exact Hl1|].
      rewrite E. exact Hk. }
    split; [|split; [|split]].
    + unfold delete_student. rewrite Hsplit, (Hdel e eq_refl). reflexivity.
    + intros x Hx E. apply active_students_In in Hx. cbn [students] in Hx.
      destruct Hx as [Hx Hact]. apply in_app_or in Hx.
      destruct Hx as [Hx | [<- | Hx]].
      * apply (Hother x); [apply in_or_app; auto | exact E].
      * discriminate Hact.
      * apply (Hother x); [apply in_or_app; auto | exact E].
    + unfold get_student. cbn [students].
      rewrite (Student_findOne_distinct (toUpperCase p) _ (deactivate e));
        [reflexivity | | apply in_or_app; right; left; reflexivity | exact Hk].
      replace (map Student.studentId (l1 ++ deactivate e :: l2))
        with (map Student.studentId (students d));
        [exact (ok_distinct _ Hok)|].
      rewrite Hsplit, !map_app. reflexivity.
    + unfold delete_student. cbn [students].
      rewrite (Hdel (deactivate e) eq_refl). reflexivity.
Qed.

Lemma soft_delete_witness :
  let d := snd (register 1 (ex_register "s100" ex_descriptor) ex_db0) in
  delete_student "nobody" d
  = (respond 404 false "Student not found" NoData, d) /\
  fst (delete_student "s100" d)
  = respond 200 true "Student deleted successfully" NoData /\
  get_students (snd (delete_student "s100" d)) = StudentList 0 [].
Proof.
  intros d.
  assert (Hok : students_ok (students d)).
  { apply students_ok_register. exact students_ok_nil. }
  destruct (soft_delete "nobody" d Hok) as [Hnone _].
  destruct (soft_delete "s100" d Hok) as [_ Hsome].
  split; [|split].
  - apply Hnone. intros x [<- | []]. discriminate.
  - destruct (Hsome (registered 1 "s100" "Ann" "CS" (repeat (Some 0%Q) 128)))
      as [l1 [l2 [_ [E _]]]]; [left; reflexivity | reflexivity |].
    rewrite E. reflexivity.
  - reflexivity.
Defined.


(** *** Update *)

Lemma Student_updateOne_app : forall k u l1 e l2,
  (forall x, In x l1 -> Student.studentId x <> studentId_set k) ->
  Student.studentId e = studentId_set k ->
  Student_updateOne k u (l1 ++ e :: l2)
  = (Some (apply_update u e), l1 ++ apply_update u e :: l2).
Proof.
  intros k u l1 e l2 Hl1 He. induction l1 as [|x l IH]; simpl.
  - rewrite He, String.eqb_refl. reflexivity.
  - destruct (Student.studentId x =? studentId_set k) eqn:E.
    + apply String.eqb_eq in E. exfalso. apply (Hl1 x); [left; reflexivity|].
      exact E.
    + rewrite IH; [reflexivity|]. intros y Hy. apply Hl1. right. exact Hy.
Qed.

Lemma update_string_truthy : forall n,
  n <> EmptyString -> update_string (JStr n) = Ok (Some (trim n)).
Proof.
  intros n H. unfold update_string. simpl.
  rewrite (proj1 (is_empty_false n) H). simpl. rewrite trim_idem. reflexivity.
Qed.

Lemma update_string_falsy : forall v,
  truthy v = false -> update_string v = Ok None.
Proof. intros v H. unfold update_string. rewrite H. reflexivity. Qed.


Lemma Student_updateOne_fixed : forall k u coll,
  map fixed_part (snd (Student_updateOne k u coll)) = map fixed_part coll.
Proof.
  intros k u coll. induction coll as [|s r IH]; simpl; [reflexivity|].
  destruct (Student.studentId s =? studentId_set k); simpl; [reflexivity|].
  destruct (Student_updateOne k u r) as [o r']; simpl in *.
  rewrite IH. reflexivity.
Qed.

(** X6.  PUT /api/students/:studentId never changes a key, a registration
    time, an active flag, the number of students or the ledger.  For a
    student that exists (keys distinct) it never answers 404; when it
    answers 200 the student it returns is what GET by the key returns
    afterwards, with the name (and the course) the trimmed string of the
    body when the body has a non-empty one, and the stored one when the
    field is falsy; on a failure nothing is written. *)
Theorem update_effect : forall p b d,
  (let d' := snd (update_student p b d) in
   map fixed_part (students d') = map fixed_part (students d) /\
   attendance d' = attendance d)
  /\ (students_ok (students d) ->
      forall e, In e (students d) -> Student.studentId e = studentId_set p ->
        match update_student p b d with
        | (StudentUpdated v, d') =>
            get_student p d' = StudentFound v /\
            v_studentId v = Student.studentId e /\
            (forall n, name b = JStr n -> n <> EmptyString ->
                       v_name v = trim n) /\
            (truthy (name b) = false -> v_name v = Student.name e) /\
            (forall c, course b = JStr c -> c <> EmptyString ->
                       v_course v = trim c) /\
            (truthy (course b) = false -> v_course v = Student.course e)
        | (Failure st _ _, d') => d' = d /\ (st = 400 \/ st = 500)
        | _ => False
        end).
Proof.
  intros p b d. split.
  - cbn zeta. split; [|apply update_attendance].
    destruct (update_student_spec p b d) as [| u s coll Hn Hc Hq Hu];
      [reflexivity|].
    cbn [snd students].
    replace coll with (snd (Student_updateOne (toUpperCase p) u (students d)))
      by (rewrite Hu; reflexivity).
    apply Student_updateOne_fixed.
  - intros Hok e Hin He.
    destruct (split_at_key _ e (ok_distinct _ Hok) Hin)
      as [l1 [l2 [Hsplit Hother]]].
    assert (Hk : Student.studentId e = studentId_set (toUpperCase p))
      by (rewrite studentId_set_toUpperCase; exact He).
    assert (Hl1 : forall x, In x l1 ->
                    Student.studentId x <> studentId_set (toUpperCase p)).
    { intros x Hx. rewrite <- Hk. apply Hother. apply in_or_app. auto. }
    unfold update_student, update_student_try.
    destruct (update_string (name b)) as [nm|] eqn:Hn; cbn [bind]; [|auto].
    destruct (update_string (course b)) as [crs|] eqn:Hc; cbn [bind]; [|auto].
    destruct (truthy (faceDescriptor b) && _); [auto|].
    destruct (if truthy (faceDescriptor b) then _ else _) as [fd|];
      cbn [bind]; [|auto].
    rewrite Hsplit, (Student_updateOne_app _ _ l1 e l2 Hl1 Hk).
    split; [|split; [reflexivity|]].
    + unfold get_student. cbn [students].
      rewrite (Student_findOne_distinct (toUpperCase p) _
                 (apply_update {| u_name := nm; u_course := crs;
                                  u_faceDescriptor := fd |} e));
        [reflexivity | | apply in_or_app; right; left; reflexivity | exact Hk].
      replace (map Student.studentId (l1 ++ apply_update _ e :: l2))
        with (map Student.studentId (students d));
        [exact (ok_distinct _ Hok)|].
      rewrite Hsplit, !map_app. reflexivity.
    + cbn [view apply_update v_name v_course u_name u_course
           Student.name Student.course].
      repeat split.
      * intros n E Hne. rewrite E, (update_string_truthy n Hne) in Hn.
        inversion Hn. reflexivity.
      * intros E. rewrite (update_string_falsy _ E) in Hn.
        inversion Hn. reflexivity.
      * intros c E Hne. rewrite E, (update_string_truthy c Hne) in Hc.
        inversion Hc. reflexivity.
      * intros E. rewrite (update_string_falsy _ E) in Hc.
        inversion Hc. reflexivity.
Qed.


Lemma update_effect_witness :
  let d := snd (register 1 (ex_register "s100" ex_descriptor) ex_db0) in
  fst (update_student "s100" (ex_update (JStr " Bea ")) d)
  = StudentUpdated {| v_studentId := "S100"; v_name := "Bea";
                      v_course := "CS"; v_registeredAt := 1;
                      v_isActive := true |}
  /\ get_student "S100" (snd (update_student "s100" (ex_update (JStr " Bea ")) d))
     = StudentFound {| v_studentId := "S100"; v_name := "Bea";
                       v_course := "CS"; v_registeredAt := 1;
                       v_isActive := true |}.
Proof.
  intros d.
  assert (Hok : students_ok (students d)).
  { apply students_ok_register. exact students_ok_nil. }
  pose proof (proj2 (update_effect "s100" (ex_update (JStr " Bea ")) d) Hok
                (registered 1 "s100" "Ann" "CS" (repeat (Some 0%Q) 128))
                (or_introl eq_refl) eq_refl) as H.
  split; [reflexivity|].
  change (update_student "s100" (ex_update (JStr " Bea ")) d)
    with (StudentUpdated {| v_studentId := "S100"; v_name := "Bea";
                            v_course := "CS"; v_registeredAt := 1;
                            v_isActive := true |},
          snd (update_student "s100" (ex_update (JStr " Bea ")) d)) in H.
  exact (proj1 H).
Defined.


(** *** Listing the ledger *)

Lemma attendance_count_In : forall k dt coll,
  In k (map Attendance.studentId
          (filter (fun a => Attendance.date a =? dt) coll)) ->
  1 <= Attendance_count k dt coll.
Proof.
  intros k dt coll H. apply in_map_iff in H. destruct H as [a [Ha Hin]].
  apply filter_In in Hin. destruct Hin as [Hin Hd].
  destruct (in_split _ _ Hin) as [l1 [l2 ->]].
  rewrite Attendance_count_app.
  change (a :: l2) with ([a] ++ l2).
  rewrite Attendance_count_app, Attendance_count_single, Ha, Hd,
    String.eqb_refl. simpl. lia.
Qed.

Lemma at_most_one_NoDup : forall dt coll,
  at_most_one coll ->
  NoDup (map Attendance.studentId
           (filter (fun a => Attendance.date a =? dt) coll)).
Proof.
  intros dt coll. induction coll as [|a r IH]; intros H; simpl;
    [constructor|].
  assert (Hr : at_most_one r).
  { intros k d. specialize (H k d).
    change (a :: r) with ([a] ++ r) in H. rewrite Attendance_count_app in H.
    lia. }
  destruct (Attendance.date a =? dt) eqn:E; [|apply IH; exact Hr].
  simpl. constructor; [|apply IH; exact Hr].
  intros Hin. apply attendance_count_In in Hin.
  specialize (H (Attendance.studentId a) dt).
  change (a :: r) with ([a] ++ r) in H.
  rewrite Attendance_count_app, Attendance_count_single, E,
    String.eqb_refl in H. simpl in H. lia.
Qed.

(** X7.  GET /api/attendance/today (and /date/:date) answers with exactly
    the records of that date, latest check-in first, [count] their number;
    where the ledger has at most one record per (identity, date), no
    student is listed twice. *)
Theorem attendance_listed : forall dt d,
  exists found,
    get_attendance_today dt d = AttendanceList dt (List.length found) found /\
    get_attendance_date dt d = AttendanceList dt (List.length found) found /\
    Permutation found
      (filter (fun a => Attendance.date a =? dt) (attendance d)) /\
    Sorted (fun a b => (b <= a)%Z) (map Attendance.checkInTime found) /\
    (at_most_one (attendance d) ->
     NoDup (map Attendance.studentId found)).
Proof.
  intros dt d. exists (attendance_on dt d).
  split; [reflexivity|]. split; [reflexivity|].
  assert (Hp : Permutation (attendance_on dt d)
                 (filter (fun a => Attendance.date a =? dt) (attendance d))).
  { symmetry. apply sort_by_perm. }
  split; [exact Hp|]. split.
  - apply Sorted_map.
    pose proof (sort_by_sorted by_time_desc by_time_desc_total
                  (filter (fun a => Attendance.date a =? dt) (attendance d)))
      as H.
    unfold attendance_on.
    induction H as [|x l Hl IH Hhd]; constructor; [exact IH|].
    destruct Hhd as [|y l' Hy]; constructor.
    unfold by_time_desc in Hy. lia.
  - intros Hone.
    apply (Permutation_NoDup (Permutation_map _ (Permutation_sym Hp))).
    apply at_most_one_NoDup. exact Hone.
Qed.

Lemma attendance_listed_witness :
  NoDup (map Attendance.studentId
           (attendance_on "3/14/2025"
              (serve_all
                 [Checkin "3/14/2025" 7
                    (ex_checkin "S100" "Ann" "CS" (JStr "87.7"));
                  Checkin "3/14/2025" 8
                    (ex_checkin "s100" "Ann" "CS" (JStr "87.7"))] ex_db0))).
Proof.
  destruct (attendance_listed "3/14/2025"
              (serve_all
                 [Checkin "3/14/2025" 7
                    (ex_checkin "S100" "Ann" "CS" (JStr "87.7"));
                  Checkin "3/14/2025" 8
                    (ex_checkin "s100" "Ann" "CS" (JStr "87.7"))] ex_db0))
    as [found [Hget [_ [_ [_ Hnd]]]]].
  injection Hget as _ <-.
  apply Hnd. cbn [serve_all fold_left serve].
  apply checkin_at_most_one, checkin_at_most_one. exact at_most_one_nil.
Defined.

(** X8.  A check-in answered 201 shows at once: its record is in the
    answer of GET /api/attendance/today for that day and in the history
    GET /api/attendance/student/:studentId gives for the key in any case. *)
Theorem checkin_then_listed : forall today now b d r d' p s,
  checkin today now b d = (Done r, d') -> status r = 201 ->
  studentId b = JStr s -> toUpperCase p = toUpperCase s ->
  exists rec found history,
    data r = AttendanceData rec /\
    get_attendance_today today d'
    = AttendanceList today (List.length found) found /\
    In rec found /\
    get_attendance_student p d'
    = StudentAttendance (toUpperCase s) (List.length history) history /\
    In rec history /\
    (forall a, In a history -> Attendance.studentId a = toUpperCase s).
Proof.
  intros today now b d r d' p s Hrun H201 Hs Hp.
  pose proof (checkin_spec today now b d) as Hspec. rewrite Hrun in Hspec.
  inversion Hspec as [r0 Hr | s0 e Hs0 Hf | s0 a Hs0 Hf Hk Hd Hv]; subst.
  - destruct Hr as [Hr | Hr]; rewrite Hr in H201; discriminate.
  - discriminate.
  - rewrite Hs in Hs0. inversion Hs0; subst s0.
    exists a, (attendance_on (Attendance.date a)
                 {| students := students d; attendance := attendance d ++ [a] |}).
    eexists. split; [reflexivity|]. split; [reflexivity|]. split; [|split; [|split]].
    + apply (Permutation_in _ (sort_by_perm by_time_desc _)).
      apply filter_In. cbn [attendance]. split.
      * apply in_or_app. right. left. reflexivity.
      * apply String.eqb_refl.
    + unfold get_attendance_student. rewrite Hp. reflexivity.
    + apply (Permutation_in _ (sort_by_perm by_time_desc _)).
      apply filter_In. cbn [attendance]. split.
      * apply in_or_app. right. left. reflexivity.
      * rewrite Hk. apply String.eqb_refl.
    + intros x Hx.
      apply (Permutation_in _ (Permutation_sym (sort_by_perm by_time_desc _)))
        in Hx.
      apply filter_In in Hx. destruct Hx as [_ Hx].
      apply String.eqb_eq in Hx. exact Hx.
Qed.

Lemma checkin_then_listed_witness :
  In (ex_record 7)
     (attendance_on "3/14/2025"
        (snd (checkin "3/14/2025" 7
                (ex_checkin "S100" "Ann" "CS" (JStr "87.7")) ex_db0))).
Proof.
  destruct (checkin_then_listed "3/14/2025" 7
              (ex_checkin "S100" "Ann" "CS" (JStr "87.7")) ex_db0
              (respond 201 true "Attendance marked successfully"
                 (AttendanceData (ex_record 7)))
              {| students := []; attendance := [ex_record 7] |} "s100" "S100"
              eq_refl eq_refl eq_refl eq_refl)
    as [rec [found [history [Hdata [Hget [Hin _]]]]]].
  simpl in Hdata. injection Hdata as <-.
  injection Hget as _ <-. exact Hin.
Defined.

(** *** Statistics *)


(** X9.  In the figures of GET /api/attendance/stats for a day, a check-in
    of that day answered 201 adds one to [presentToday] and to
    [totalAttendanceRecords] and takes one from [absentToday], whoever
    checks in; [totalStudents] does not move, so with no more active
    students than records [absentToday] falls below zero.  A check-in
    answered otherwise leaves the figures as they were. *)
Theorem stats_after_checkin : forall today now b d r d',
  checkin today now b d = (Done r, d') ->
  let st := stats_of today d in
  let st' := stats_of today d' in
  totalStudents st' = totalStudents st /\
  (status r = 201 ->
   presentToday st' = S (presentToday st) /\
   absentToday st' = (absentToday st - 1)%Z /\
   totalAttendanceRecords st' = S (totalAttendanceRecords st) /\
   (totalStudents st <= presentToday st -> (absentToday st' < 0)%Z)) /\
  (status r <> 201 -> st' = st).
Proof.
  intros today now b d r d' Hrun.
  pose proof (checkin_spec today now b d) as Hspec. rewrite Hrun in Hspec.
  inversion Hspec as [r0 Hr | s0 e Hs0 Hf | s0 a Hs0 Hf Hk Hd Hv]; subst;
    cbn zeta.
  - split; [reflexivity|]. split; [|reflexivity].
    intros E. destruct Hr as [Hr | Hr]; rewrite Hr in E; discriminate.
  - split; [reflexivity|]. split; [discriminate | reflexivity].
  - split; [reflexivity|]. split; [|intros E; exfalso; apply E; reflexivity].
    intros _. unfold stats_of, get_attendance_stats.
    cbn [students attendance totalStudents presentToday absentToday
         totalAttendanceRecords].
    rewrite filter_app, !length_app. cbn [filter].
    rewrite String.eqb_refl. cbn [List.length]. repeat split; lia.
Qed.

Lemma stats_after_checkin_witness :
  absentToday (stats_of "3/14/2025"
    (snd (checkin "3/14/2025" 7
            (ex_checkin "S100" "Ann" "CS" (JStr "87.7")) ex_db0))) = (-1)%Z.
Proof.
  destruct (stats_after_checkin "3/14/2025" 7
              (ex_checkin "S100" "Ann" "CS" (JStr "87.7")) ex_db0
              (respond 201 true "Attendance marked successfully"
                 (AttendanceData (ex_record 7)))
              {| students := []; attendance := [ex_record 7] |} eq_refl)
    as [_ [H _]].
  destruct (H eq_refl) as [_ [Habs _]]. exact Habs.
Defined.

(** *** Nothing is removed *)

Lemma prefix_refl : forall {A} (l : list A), prefix l l.
Proof. intros A l. exists []. rewrite app_nil_r. reflexivity. Qed.

Lemma prefix_trans : forall {A} (l1 l2 l3 : list A),
  prefix l1 l2 -> prefix l2 l3 -> prefix l1 l3.
Proof.
  intros A l1 l2 l3 [r1 ->] [r2 ->]. exists (r1 ++ r2).
  rewrite app_assoc. reflexivity.
Qed.

Lemma serve_grows : forall d r,
  is_clear r = false ->
  prefix (attendance d) (attendance (serve d r)) /\
  prefix (map Student.studentId (students d))
         (map Student.studentId (students (serve d r))).
Proof.
  intros d r Hr. destruct r as [now b | p b | p | today now b |];
    cbn [serve]; [| | | |discriminate].
  - rewrite register_attendance. split; [apply prefix_refl|].
    destruct (Nat.eq_dec (status (fst (register now b d))) 201) as [E|E].
    + destruct (register_201_inv now b d E)
        as [s [n [c [l [q [Hs [Hn [Hc [Hl [Hlen [Hq [Hi [Hnm [Hcr Hnew]]]]]]]]]]]]]].
      rewrite (register_succeeds now b d s n c l q) by assumption.
      cbn [snd students]. rewrite map_app. eexists. reflexivity.
    + rewrite (register_unchanged now b d E). apply prefix_refl.
  - rewrite update_attendance. split; [apply prefix_refl|].
    rewrite update_ids. apply prefix_refl.
  - rewrite delete_attendance, delete_student_ids.
    split; apply prefix_refl.
  - rewrite checkin_students. split; [|apply prefix_refl].
    destruct (checkin_spec today now b d); cbn [snd attendance];
      try apply prefix_refl.
    eexists. reflexivity.
Qed.


(** X10.  No write request but DELETE /api/admin/clear-all removes or
    rewrites an attendance record, removes a student or changes a key:
    through any such requests the ledger only grows at its end, and so
    does the sequence of student keys. *)
Theorem nothing_removed : forall reqs d,
  forallb (fun r => negb (is_clear r)) reqs = true ->
  prefix (attendance d) (attendance (serve_all reqs d)) /\
  prefix (map Student.studentId (students d))
         (map Student.studentId (students (serve_all reqs d))).
Proof.
  induction reqs as [|r reqs IH]; intros d H; cbn [serve_all fold_left].
  - split; apply prefix_refl.
  - simpl in H. apply andb_true_iff in H. destruct H as [Hr Hrest].
    apply negb_true_iff in Hr.
    destruct (serve_grows d r Hr) as [Ha Hs].
    destruct (IH (serve d r) Hrest) as [Ha' Hs'].
    split; eapply prefix_trans; eassumption.
Qed.

Lemma nothing_removed_witness :
  prefix [ex_record 7]
    (attendance (serve_all
       [Delete "S100"; Update "S100" (ex_update (JStr "Bea"));
        Checkin "3/15/2025" 9 (ex_checkin "S100" "Ann" "CS" JNull)]
       {| students := []; attendance := [ex_record 7] |})).
Proof.
  apply (nothing_removed
           [Delete "S100"; Update "S100" (ex_update (JStr "Bea"));
            Checkin "3/15/2025" 9 (ex_checkin "S100" "Ann" "CS" JNull)]
           {| students := []; attendance := [ex_record 7] |}).
  reflexivity.
Defined.

End ServerRoutesSpec.

(* ================================================================= *)
(** * More properties of the client *)

Module ClientMoreSpec.
Import JsString Client ClientForm ClientSpec.

Section Generic.
Context {N : JsNumber}.

(** *** The distance is symmetric *)

Lemma sum_squares_swap : forall {S : JsNumberSquareLaw N} a b acc,
  sum_squares acc a b = sum_squares acc b a.
Proof.
  intros S a. induction a as [|x a IH]; intros [|y b] acc; simpl;
    try reflexivity.
  rewrite (pow_sub_swap x y). apply IH.
Qed.

(** X11.  Between two vectors of one length [euclideanDistance] is
    symmetric. *)
Theorem euclideanDistance_symmetric : forall {S : JsNumberSquareLaw N} a b,
  List.length a = List.length b ->
  euclideanDistance a b = euclideanDistance b a.
Proof.
  intros S a b Hlen.
  rewrite (euclideanDistance_formula a b Hlen).
  rewrite (euclideanDistance_formula b a (eq_sym Hlen)).
  rewrite sum_squares_swap. reflexivity.
Qed.

(** *** The first of the closest *)

Context {L : JsNumberLaws N}.

Lemma find_best_first : forall fd l best bd,
  find_best fd l = (Some best, bd) ->
  exists l1 l2,
    l = l1 ++ best :: l2 /\ bd = dist fd best /\
    lt (dist fd best) (lit 0.6) = true /\
    (forall s, In s l1 ->
       dist fd s <> dist fd best /\ lt (dist fd s) (dist fd best) = false) /\
    (forall s, In s l2 -> lt (dist fd s) (dist fd best) = false).
Proof.
  intros fd l. induction l as [|x l IH] using rev_ind; intros best bd H.
  - discriminate.
  - unfold find_best in H. rewrite fold_left_app in H. cbn [fold_left] in H.
    fold (find_best fd l) in H.
    destruct (find_best fd l) as [bm bd'] eqn:E. rewrite best_step_eq in H.
    destruct (lt (dist fd x) bd') eqn:Hx.
    + inversion H; subst. exists l, []. split; [reflexivity|].
      split; [reflexivity|].
      destruct (find_best_spec fd l) as [[E' Hall] | [s [Hin [E' [Hlt Hall]]]]];
        rewrite E in E'; inversion E'; subst.
      * split; [exact Hx|]. split; [|intros s []].
        intros s Hs. split.
        -- intros Eq. rewrite <- Eq, (Hall s Hs) in Hx. discriminate.
        -- destruct (lt (dist fd s) (dist fd best)) eqn:E2; [|reflexivity].
           rewrite <- (Hall s Hs). symmetry. eapply lt_transitive; eauto.
      * split; [eapply lt_transitive; eauto|]. split; [|intros s0 []].
        intros s0 Hs0. split.
        -- intros Eq. rewrite <- Eq, (Hall s0 Hs0) in Hx. discriminate.
        -- destruct (lt (dist fd s0) (dist fd best)) eqn:E2; [|reflexivity].
           rewrite <- (Hall s0 Hs0). symmetry. eapply lt_transitive; eauto.
    + inversion H; subst.
      destruct (IH best bd eq_refl) as [l1 [l2 [-> [-> [Hlt [H1 H2]]]]]].
      exists l1, (l2 ++ [x]). split; [rewrite <- app_assoc; reflexivity|].
      split; [reflexivity|]. split; [exact Hlt|]. split; [exact H1|].
      intros s Hs. apply in_app_or in Hs. destruct Hs as [Hs | [<- | []]];
        [apply H2; exact Hs | exact Hx].
Qed.

(** X12.  When several enrolled students are at the minimum distance, the
    one posted is the first of them in [studentDescriptors]: every
    student before the one posted is at another distance, and none, before
    or after, is strictly closer. *)
Theorem first_of_the_closest :
  forall faceDescriptor rest studentDescriptors i n c confidence,
    startVerify_click (faceDescriptor :: rest) studentDescriptors
    = PostCheckin i n c confidence ->
    exists before best after,
      studentDescriptors = before ++ best :: after /\
      i = id best /\ n = name best /\ c = course best /\
      (forall s, In s before ->
         dist faceDescriptor s <> dist faceDescriptor best) /\
      (forall s, In s (before ++ after) ->
         lt (dist faceDescriptor s) (dist faceDescriptor best) = false).
Proof.
  intros fd rest l i n c conf. unfold startVerify_click.
  destruct (List.length l =? 0)%nat; [discriminate|].
  destruct (find_best fd l) as [[best|] bd] eqn:E; [|discriminate].
  intros H. inversion H; subst.
  destruct (find_best_first fd l best bd E) as [l1 [l2 [-> [_ [_ [H1 H2]]]]]].
  exists l1, best, l2. repeat split; try reflexivity.
  - intros s Hs. apply (H1 s Hs).
  - intros s Hs. apply in_app_or in Hs. destruct Hs as [Hs | Hs];
      [apply (H1 s Hs) | apply (H2 s Hs)].
Qed.

End Generic.

(** *** The register page *)

Section Form.
Context {N : JsNumber}.

Lemma form_step_ok : forall f e, form_ok f -> form_ok (form_step f e).
Proof.
  intros f [[|x ds] | ds | [|]] Hok; cbn [form_step]; try exact Hok.
  - unfold captureFace_click.
    destruct (3 <=? _)%nat eqn:E; unfold form_ok; cbn.
    + intros _. apply Nat.leb_le. exact E.
    + intros H. specialize (Hok H). rewrite length_app. lia.
  - unfold form_ok. cbn. discriminate.
Qed.

Lemma form_step_captured : forall es f,
  capturedSamples (fold_left form_step es f) = captured (capturedSamples f) es.
Proof.
  induction es as [|e es IH]; intros f; [reflexivity|].
  cbn [fold_left]. rewrite IH.
  destruct e as [[|x ds] | ds | [|]]; cbn [form_step captured]; try reflexivity.
  unfold captureFace_click. destruct (3 <=? _)%nat; reflexivity.
Qed.

(** X13.  On the register page, through any captures, detections and
    server answers: the samples are the first descriptor of every capture
    click that had a face since the last successful registration, however
    many; the register button is enabled only with three samples or more;
    and a click on it with the form filled in then posts the mean of all
    the samples. *)
Theorem register_page : forall es f reg_id reg_name reg_course,
  form_ok f ->
  let f' := fold_left form_step es f in
  capturedSamples f' = captured (capturedSamples f) es /\
  (registerDisabled f' = false -> 3 <= List.length (capturedSamples f')) /\
  (registerDisabled f' = false ->
   is_empty (toUpperCase (trim reg_id)) = false ->
   is_empty (trim reg_name) = false -> is_empty (trim reg_course) = false ->
   registerStudent_click reg_id reg_name reg_course (capturedSamples f')
   = PostRegister (toUpperCase (trim reg_id)) (trim reg_name)
       (trim reg_course) (avgDescriptor (capturedSamples f'))).
Proof.
  intros es f reg_id reg_name reg_course Hok f'. subst f'.
  assert (Hok' : form_ok (fold_left form_step es f)).
  { revert f Hok. induction es as [|e es IH]; intros f Hok; [exact Hok|].
    cbn [fold_left]. apply IH. apply form_step_ok. exact Hok. }
  split; [apply form_step_captured|]. split; [exact Hok'|].
  intros Hen Hi Hn Hc. unfold registerStudent_click.
  rewrite Hi, Hn, Hc. simpl.
  specialize (Hok' Hen). apply Nat.ltb_ge in Hok'. rewrite Hok'. reflexivity.
Qed.

End Form.

End ClientMoreSpec.

(* ================================================================= *)
(** * The client over the reals, and the server it posts to *)

Module ClientMoreReal.
Import JsString Client ClientForm RealModel ClientSpec RealFacts ClientReal.
Import ClientExamples ClientMoreSpec.
Local Open Scope R_scope.

#[export] Instance RealSquareLaw : JsNumberSquareLaw RealNumber.
Proof.
  constructor. intros [x|] [y|]; cbn; try reflexivity. f_equal. ring.
Qed.

Lemma euclideanDistance_symmetric_witness :
  euclideanDistance [Real 0; Real 3] [Real 4; Real 0]
  = euclideanDistance [Real 4; Real 0] [Real 0; Real 3].
Proof.
  apply (euclideanDistance_symmetric (N := RealNumber)). reflexivity.
Defined.






Lemma first_of_the_closest_witness :
  exists confidence,
    startVerify_click [[Real 0]] [ex_student [Real 0]; ex_student2 [Real 0]]
    = PostCheckin "S100" "Ann" "CS" confidence.
Proof.
  destruct (confidence_identical (N := RealNumber) [Real 0] []
              [ex_student [Real 0]; ex_student2 [Real 0]])
    as [i [n [c Hpost]]].
  { intros x [<- | []]. reflexivity. }
  { exists (ex_student [Real 0]). split; [left|]; reflexivity. }
  destruct (first_of_the_closest (N := RealNumber) _ _ _ _ _ _ _ Hpost)
    as [before [best [after [Hsplit [Hi [Hn [Hc [Hdiff _]]]]]]]].
  exists "100.0"%string. refine (eq_trans Hpost _). rewrite Hi, Hn, Hc.
  destruct before as [|s0 before].
  - injection Hsplit as <- _. reflexivity.
  - exfalso. injection Hsplit as <- Hrest.
    destruct before as [|s1 before].
    + injection Hrest as <- _.
      apply (Hdiff (ex_student [Real 0])); [left; reflexivity | reflexivity].
    + injection Hrest as _ Hrest. destruct before; discriminate.
Defined.

Lemma register_page_witness :
  registerStudent_click "s100" "Ann" "CS"
    [[Real 1]; [Real 2]; [Real 3]; [Real 4]]
  = PostRegister "S100" "Ann" "CS"
      (avgDescriptor [[Real 1]; [Real 2]; [Real 3]; [Real 4]]).
Proof.
  destruct (register_page (N := RealNumber)
              [CaptureClick (N := RealNumber) [[Real 1]];
               CaptureClick (N := RealNumber) [];
               CaptureClick (N := RealNumber) [[Real 2]; [Real 9]];
               Detection (N := RealNumber) [];
               CaptureClick (N := RealNumber) [[Real 3]];
               CaptureClick (N := RealNumber) [[Real 4]]]
              {| capturedSamples := []; captureDisabled := false;
                 registerDisabled := true |} "s100" "Ann" "CS")
    as [_ [_ Hpost]].
  - intros H. discriminate H.
  - apply Hpost; reflexivity.
Defined.

End ClientMoreReal.
